(** * Alignment of two time series (ml_integration/RNNAEAlignment.py)

    A shallow embedding of the [Alignment] class: the overlap resolver
    ([getOverlapData]), the strategy dispatch ([getResult]), the two
    resampling policies ([upsampling], [downsampling]), the window builder
    ([get_loaders]) and the embedding aligner ([RNN_AE]).

    Python values are kept as the code has them: integers are [Z], the two
    configuration dictionaries are [gmap string _], a data frame is its
    column labels and its labelled rows, NaN is [None].  Exceptions are
    identified by the name of their class.  Printing and the checkpoint
    store are threaded through a small state-and-error monad. *)

From Stdlib Require Import ZArith Lia Permutation DecimalString.
From stdpp Require Import gmap strings list fin_maps.

Local Open Scope Z_scope.

(** ** Python values, exceptions, results *)

Inductive PyVal : Type :=
| VInt (z : Z)
| VStr (s : string).

#[global] Instance PyVal_eq_dec : EqDecision PyVal.
Proof. solve_decision. Defined.

(** A configuration entry: a scalar, or a nested dictionary of scalars
    (the value stored under 'parameter'). *)
Inductive CfgVal : Type :=
| CScalar (v : PyVal)
| CDict (d : gmap string PyVal).

#[global] Instance CfgVal_eq_dec : EqDecision CfgVal.
Proof. solve_decision. Defined.

(** An exception is named by its class. *)
Definition exn : Type := string.

Inductive result (A : Type) : Type :=
| Ok (a : A)
| Raise (e : exn).
Arguments Ok {A} a.
Arguments Raise {A} e.

Definition is_ok {A} (r : result A) : bool :=
  match r with Ok _ => true | Raise _ => false end.

Definition rbind {A B} (r : result A) (k : A -> result B) : result B :=
  match r with
  | Ok a => k a
  | Raise e => Raise e
  end.

(** [d[k]] on a configuration entry: KeyError when the key is absent,
    TypeError when the entry is not a dictionary. *)
Definition subscript (d : CfgVal) (k : string) : result PyVal :=
  match d with
  | CDict m => match m !! k with
               | Some v => Ok v
               | None => Raise "KeyError"
               end
  | CScalar _ => Raise "TypeError"
  end.

(** An operand that has to be an integer. *)
Definition as_int (v : PyVal) : result Z :=
  match v with
  | VInt z => Ok z
  | VStr _ => Raise "TypeError"
  end.

(** ** Sequences: [range], slices *)

(** [range(k)] *)
Definition range (k : Z) : list Z :=
  map Z.of_nat (seq 0 (Z.to_nat k)).

(** [range(a, b)] *)
Definition range_from (a b : Z) : list Z :=
  map (fun i => a + Z.of_nat i) (seq 0 (Z.to_nat (b - a))).

(** A slice bound [x] on a sequence of length [n]: negative bounds count
    from the end, and every bound is clipped to [0, n]. *)
Definition slice_bound (n x : Z) : Z :=
  if x <? 0 then Z.max (x + n) 0 else Z.min x n.

(** [l[a:b]] *)
Definition py_slice {A} (l : list A) (a b : Z) : list A :=
  let n := Z.of_nat (length l) in
  let start := slice_bound n a in
  let stop := slice_bound n b in
  take (Z.to_nat (stop - start)) (drop (Z.to_nat start) l).

(** [l[a:]] *)
Definition py_slice_from {A} (l : list A) (a : Z) : list A :=
  drop (Z.to_nat (slice_bound (Z.of_nat (length l)) a)) l.

(** ** Data frames *)

(** A row: its label and its cells; a missing cell (NaN) is [None]. *)
Abbreviation Row V := (Z * list (option V))%type.

Section Frames.

(** The type of a numeric cell (float64 in the program). *)
Context {V : Type}.

Record DataFrame : Type := mkFrame {
  columns : list string;
  rows : list (Row V)
}.

Definition index (df : DataFrame) : list Z := map fst (rows df).

Definition nrows (df : DataFrame) : nat := length (rows df).

(** Every row has one cell per column. *)
Definition wf_frame (df : DataFrame) : Prop :=
  Forall (fun r : Row V => length (snd r) = length (columns df)) (rows df).

(** A two-dimensional array: its column count and its rows. *)
Record ndarray : Type := mkArray {
  nd_ncols : nat;
  nd_data : list (list (option V))
}.

(** [df.values] *)
Definition values (df : DataFrame) : ndarray :=
  {| nd_ncols := length (columns df); nd_data := map snd (rows df) |}.

(** [index.min()] and [index.max()]; an empty index has none (pandas
    answers NaN). *)
Definition index_min (l : list Z) : option Z :=
  match l with
  | [] => None
  | z :: l' => Some (foldl Z.min z l')
  end.

Definition index_max (l : list Z) : option Z :=
  match l with
  | [] => None
  | z :: l' => Some (foldl Z.max z l')
  end.

(** The default index of a frame built from an array: 0, 1, ..., n-1. *)
Definition RangeIndex (n : nat) : list Z := range (Z.of_nat n).

(** [pd.DataFrame(arr, columns=cols, index=idx)]: the shape of the array
    has to be (len(idx), len(cols)). *)
Definition DataFrame_of_array (arr : ndarray) (cols : list string)
    (idx : option (list Z)) : result DataFrame :=
  let idx' := default (RangeIndex (length (nd_data arr))) idx in
  if (nd_ncols arr =? length cols)%nat && (length (nd_data arr) =? length idx')%nat
  then Ok {| columns := cols; rows := zip idx' (nd_data arr) |}
  else Raise "ValueError".

(** *** Outer join along the columns *)

(** The union of two indexes, in order of appearance: the labels of the
    first, then the labels of the second that the first does not have. *)
Definition union_index (i1 i2 : list Z) : list Z :=
  i1 ++ filter (fun z => z ∉ i1) i2.

(** The cells of [df] at label [l]; NaN in every column when [df] has no
    such row. *)
Definition row_at (df : DataFrame) (l : Z) : list (option V) :=
  match find (fun r : Row V => fst r =? l) (rows df) with
  | Some r => snd r
  | None => replicate (length (columns df)) None
  end.

(** [pd.concat([x1, x2], axis=1, join='outer')].  Frames with the same
    index are put side by side as they are.  Otherwise the rows are
    re-indexed on the union of the two indexes, which pandas refuses when
    an index has a duplicated label. *)
Definition concat_outer (x1 x2 : DataFrame) : result DataFrame :=
  if decide (index x1 = index x2) then
    Ok {| columns := columns x1 ++ columns x2;
          rows := zip_with (fun r1 r2 : Row V => (fst r1, snd r1 ++ snd r2))
                           (rows x1) (rows x2) |}
  else if bool_decide (NoDup (index x1)) && bool_decide (NoDup (index x2)) then
    Ok {| columns := columns x1 ++ columns x2;
          rows := map (fun l => (l, row_at x1 l ++ row_at x2 l))
                      (union_index (index x1) (index x2)) |}
  else Raise "InvalidIndexError".

(** [df.iloc[a:b, :]]: rows by position. *)
Definition iloc (df : DataFrame) (a b : Z) : DataFrame :=
  {| columns := columns df; rows := py_slice (rows df) a b |}.

(** *** getOverlapData

    The bounds are the later of the two minima and the earlier of the two
    maxima of the index labels; they are handed to [iloc], which counts
    rows.  On an empty index the minimum is NaN, which [iloc] refuses.
    The labels are 64-bit integers in the program; [v_max + 1] is taken in
    [Z], as the program computes it for every label below the largest
    64-bit integer. *)

Definition getOverlapData (x1 x2 : DataFrame) : result DataFrame :=
  let v1_min := index_min (index x1) in
  let v2_min := index_min (index x2) in
  let v1_max := index_max (index x1) in
  let v2_max := index_max (index x2) in
  rbind (concat_outer x1 x2) (fun data_concat =>
  match v1_min, v2_min, v1_max, v2_max with
  | Some v1_min, Some v2_min, Some v1_max, Some v2_max =>
      let v_min := Z.max v1_min v2_min in
      let v_max := Z.min v1_max v2_max in
      Ok (iloc data_concat v_min (v_max + 1))
  | _, _, _, _ => Raise "TypeError"
  end).

(** The overlap table as the specification words it: the outer join,
    restricted to the rows whose label lies in
    [max(min1,min2), min(max1,max2)]. *)
Definition overlap_by_label (x1 x2 : DataFrame) : result DataFrame :=
  rbind (concat_outer x1 x2) (fun data_concat =>
  match index_min (index x1), index_min (index x2),
        index_max (index x1), index_max (index x2) with
  | Some v1_min, Some v2_min, Some v1_max, Some v2_max =>
      let v_min := Z.max v1_min v2_min in
      let v_max := Z.min v1_max v2_max in
      Ok {| columns := columns data_concat;
            rows := filter (fun r : Row V => v_min <= fst r <= v_max) (rows data_concat) |}
  | _, _, _, _ => Raise "TypeError"
  end).

End Frames.

Arguments DataFrame : clear implicits.
Arguments ndarray : clear implicits.

(** ** Effects: standard output and the checkpoint store *)

Inductive fsnode (W : Type) : Type :=
| Dir
| File (content : W).
Arguments Dir {W}.
Arguments File {W} content.

Record World (W : Type) : Type := mkWorld {
  stdout : list string;
  fs : gmap string (fsnode W)
}.
Arguments mkWorld {W} stdout fs.
Arguments stdout {W} w.
Arguments fs {W} w.

(** A computation that may print, touch the file system, and raise. *)
Definition M (W A : Type) : Type := World W -> result A * World W.

#[global] Instance result_ret : MRet result := fun A a => Ok a.
#[global] Instance result_bind : MBind result := fun A B k r => rbind r k.
#[global] Instance M_ret {W} : MRet (M W) := fun A a w => (Ok a, w).
#[global] Instance M_bind {W} : MBind (M W) := fun A B k m w =>
  match m w with
  | (Ok a, w') => k a w'
  | (Raise e, w') => (Raise e, w')
  end.

Definition lift {W A} (r : result A) : M W A := fun w => (r, w).

Definition raise {W A} (e : exn) : M W A := fun w => (Raise e, w).

(** [print(s)] *)
Definition print {W} (s : string) : M W () := fun w =>
  (Ok (), {| stdout := stdout w ++ [s]; fs := fs w |}).

(** [os.makedirs(path, exist_ok=True)] *)
Definition makedirs {W} (path : string) : M W () := fun w =>
  match fs w !! path with
  | Some Dir => (Ok (), w)
  | Some (File _) => (Raise "FileExistsError", w)
  | None => (Ok (), {| stdout := stdout w; fs := <[path := Dir]> (fs w) |})
  end.

(** [torch.save(obj, path)]: the serialized object replaces whatever file
    is at [path]. *)
Definition torch_save {W} (obj : W) (path : string) : M W () := fun w =>
  match fs w !! path with
  | Some Dir => (Raise "RuntimeError", w)
  | _ => (Ok (), {| stdout := stdout w; fs := <[path := File obj]> (fs w) |})
  end.

(** ** Data loaders *)

Section Loaders.

Context {V : Type}.

(** The rounding of a double-precision number to single precision. *)
Variable float32 : V -> V.

(** A loader over a data set of windows. *)
Record DataLoader : Type := mkLoader {
  dataset : list (ndarray V);
  batch_size : nat;
  shuffle : bool
}.

(** [np.array(windows)]: the windows are stacked, which needs them all of
    one shape. *)
Definition np_array (windows : list (ndarray V)) : result (list (ndarray V)) :=
  match windows with
  | [] => Ok []
  | w0 :: _ =>
      if forallb (fun w => (length (nd_data w) =? length (nd_data w0))%nat) windows
      then Ok windows
      else Raise "ValueError"
  end.

(** [torch.utils.data.DataLoader(dataset, batch_size=b, shuffle=s)].  With
    [shuffle] the loader draws its order from a random sampler, which is
    refused on an empty data set; the batch size has to be a positive
    integer. *)
Definition DataLoader_new (ds : list (ndarray V)) (b : PyVal) (s : bool)
    : result DataLoader :=
  if s && (length ds =? 0)%nat then Raise "ValueError"
  else match b with
       | VInt z => if 0 <? z
                   then Ok {| dataset := ds; batch_size := Z.to_nat z; shuffle := s |}
                   else Raise "ValueError"
       | VStr _ => Raise "ValueError"
       end.

(** One pass over a loader.  [iter(loader)] starts a new pass each time it
    is called: the samples in the sampler's order ([perm] is the
    permutation the random sampler draws for this pass), cut in batches. *)
Record LoaderIter : Type := mkIter {
  it_pending : list (ndarray V);
  it_batch : nat
}.

Definition loader_iter (ld : DataLoader) (perm : list nat) : LoaderIter :=
  {| it_pending := if shuffle ld
                   then omap (fun i => dataset ld !! i) perm
                   else dataset ld;
     it_batch := batch_size ld |}.

(** [next(it)]; [None] is StopIteration. *)
Definition iter_next (it : LoaderIter) : option (list (ndarray V) * LoaderIter) :=
  match it_pending it with
  | [] => None
  | _ => Some (take (it_batch it) (it_pending it),
               {| it_pending := drop (it_batch it) (it_pending it);
                  it_batch := it_batch it |})
  end.

Fixpoint iter_all (fuel : nat) (it : LoaderIter) : list (list (ndarray V)) :=
  match fuel with
  | O => []
  | S fuel' =>
      match iter_next it with
      | None => []
      | Some (b, it') => b :: iter_all fuel' it'
      end
  end.

(** [list(loader)]: every batch of one pass. *)
Definition batches (ld : DataLoader) (perm : list nat) : list (list (ndarray V)) :=
  let it := loader_iter ld perm in
  iter_all (length (it_pending it)) it.

(** *** get_loaders *)

(** [data[i:i + window_size, :]] *)
Definition window (data : ndarray V) (i window_size : Z) : ndarray V :=
  {| nd_ncols := nd_ncols data;
     nd_data := py_slice (nd_data data) i (i + window_size) |}.

Definition make_windows (data : ndarray V) (window_size : Z) : list (ndarray V) :=
  map (fun i => window data i window_size)
      (range (Z.of_nat (length (nd_data data)) - window_size)).

(** [torch.Tensor(stacked)]: a tensor of single-precision numbers, every
    cell rounded to float32 (NaN stays NaN). *)
Definition torch_Tensor (stacked : list (ndarray V)) : list (ndarray V) :=
  map (fun win => {| nd_ncols := nd_ncols win;
                     nd_data := map (map (fmap float32)) (nd_data win) |})
      stacked.

Definition get_loaders (data : DataFrame V) (window_size batch_size : PyVal)
    : result (DataLoader * DataLoader) :=
  let data := values data in
  w ← as_int window_size;
  let windows := make_windows data w in
  stacked ← np_array windows;
  let ds := torch_Tensor stacked in
  train_loader ← DataLoader_new ds batch_size true;
  inference_loader ← DataLoader_new ds batch_size false;
  Ok (train_loader, inference_loader).

End Loaders.

Arguments DataLoader : clear implicits.
Arguments LoaderIter : clear implicits.

(** ** The Alignment class *)

Section Alignment.

Context {V : Type}.

(** Floating-point arithmetic is not modelled; what the program computes
    with it enters as parameters: the constant 0, the rounding to single
    precision, the mean of a non-empty list of numbers (NaN, that is
    [None], when the sum is: a column that holds both infinities has no
    mean), the test for an infinite number, and the value the
    k-nearest-neighbour imputer puts in a missing cell (from the neighbour
    count, the fitted table, and the position of the cell by row and
    column). *)
Variable zero : V.
Variable float32 : V -> V.
Variable mean : list V -> option V.
Variable is_inf : V -> bool.
Variable knn_value : Z -> DataFrame V -> nat -> nat -> V.

(** The recurrent auto-encoder and its trainer ([models.model],
    [models.train_model]) are used through their call interface: building
    a model, training it on a loader, reading its weights, and computing
    one embedding per window.  They take the values the program passes
    them and return a value or raise; they do not touch the checkpoint
    store. *)
Context {Model Weights History : Type}.
Variable RecurrentAutoencoder : nat -> PyVal -> result Model.
Variable train_model : Model -> DataLoader V -> CfgVal -> result (Model * History).
Variable state_dict : Model -> Weights.
Variable get_representation : Model -> DataLoader V -> CfgVal -> result (ndarray V).

Record Alignment : Type := mkAlignment {
  config : gmap string CfgVal;
  x1 : DataFrame V;
  x2 : DataFrame V;
  data_concat : DataFrame V
}.

(** [Alignment(config, x1, x2)] *)
Definition Alignment_init (config : gmap string CfgVal) (x1 x2 : DataFrame V)
    : result Alignment :=
  data_concat ← getOverlapData x1 x2;
  Ok {| config := config; x1 := x1; x2 := x2; data_concat := data_concat |}.

(** *** Helpers on frames *)

(** The non-missing values of column [j]. *)
Definition present (df : DataFrame V) (j : nat) : list V :=
  omap (fun r : Row V => mjoin (snd r !! j)) (rows df).

(** [df.mean()] at column [j]; NaN when the column has no value. *)
Definition column_mean (df : DataFrame V) (j : nat) : option V :=
  match present df j with
  | [] => None
  | vs => mean vs
  end.

(** [df.fillna(df.mean())] *)
Definition fillna_mean (df : DataFrame V) : DataFrame V :=
  {| columns := columns df;
     rows := map (fun r : Row V =>
                    (fst r, imap (fun j c => match c with
                                             | Some v => Some v
                                             | None => column_mean df j
                                             end) (snd r)))
                 (rows df) |}.

(** [df.fillna(0)] *)
Definition fillna_zero (df : DataFrame V) : DataFrame V :=
  {| columns := columns df;
     rows := map (fun r : Row V =>
                    (fst r, map (fun c => Some (default zero c)) (snd r)))
                 (rows df) |}.

(** A row without a missing cell. *)
Definition complete (r : Row V) : Prop := Forall is_Some (snd r).

(** [df.dropna(axis=0)] *)
Definition dropna (df : DataFrame V) : DataFrame V :=
  {| columns := columns df; rows := filter complete (rows df) |}.

(** A table with an infinite cell. *)
Definition has_inf (df : DataFrame V) : bool :=
  existsb (fun r : Row V =>
             existsb (fun c : option V => from_option is_inf false c) (snd r))
          (rows df).

(** [KNNImputer(n_neighbors=n).fit_transform(df)].  The validation of the
    parameters rejects a neighbour count that is not a positive integer
    with InvalidParameterError; the validation of the data rejects, with
    ValueError, a table with an infinite cell and a table without rows or
    without columns.  The transformed array has every row of the table
    and the columns that hold at least one value; the present cells are
    kept and the missing ones imputed. *)
Definition KNNImputer_fit_transform (n_neighbors : PyVal) (df : DataFrame V)
    : result (ndarray V) :=
  match n_neighbors with
  | VStr _ => Raise "InvalidParameterError"
  | VInt n =>
      if n <=? 0 then Raise "InvalidParameterError"
      else if has_inf df then Raise "ValueError"
      else if (nrows df =? 0)%nat || (length (columns df) =? 0)%nat
      then Raise "ValueError"
      else
        let keep := filter (fun j => present df j ≠ [])
                           (seq 0 (length (columns df))) in
        Ok {| nd_ncols := length keep;
              nd_data := imap (fun i (r : Row V) =>
                                 map (fun j => Some (default (knn_value n df i j)
                                                             (mjoin (snd r !! j))))
                                     keep)
                              (rows df) |}
  end.

(** *** upsampling *)

Definition upsampling (data_concat : DataFrame V) (parameter : CfgVal)
    : M Weights (DataFrame V) :=
  method ← lift (subscript parameter "method");
  n_neighbors ← lift (subscript parameter "n_neighbors");
  if decide (method = VStr "knn") then
    data_concat_transform ← lift (KNNImputer_fit_transform n_neighbors data_concat);
    lift (DataFrame_of_array data_concat_transform (columns data_concat) None)
  else if decide (method = VStr "mean") then
    mret (fillna_mean data_concat)
  else
    print "not imp";;
    raise "UnboundLocalError".

(** *** downsampling *)

Definition downsampling (data_concat : DataFrame V) : DataFrame V :=
  dropna data_concat.

(** *** RNN_AE *)

Definition checkpoint_dir : string := "./checkpoints".
Definition checkpoint_path : string := "./checkpoints/best_model.pt".

(** [f'concat_emb{i}'] *)
Definition concat_emb (i : Z) : string :=
  "concat_emb" +:+ NilZero.string_of_int (Z.to_int i).

Definition RNN_AE (self : Alignment) (data_concat0 : DataFrame V)
    (parameter : CfgVal) : M Weights (DataFrame V) :=
  let n_features := length (columns data_concat0) in
  let data_concat1 := fillna_zero data_concat0 in
  window_size ← lift (subscript parameter "window_size");
  batch ← lift (subscript parameter "batch_size");
  loaders ← lift (get_loaders float32 data_concat1 window_size batch);
  let train_loader := fst loaders in
  let inference_loader := snd loaders in
  emb_dim ← lift (subscript parameter "emb_dim");
  model ← lift (RecurrentAutoencoder n_features emb_dim);
  trained ← lift (train_model model train_loader parameter);
  let model := fst trained in
  makedirs checkpoint_dir;;
  torch_save (state_dict model) checkpoint_path;;
  output ← lift (get_representation model inference_loader parameter);
  e ← lift (as_int emb_dim);
  let data_col := map concat_emb (range_from 1 (e + 1)) in
  w ← lift (as_int window_size);
  let data_index := py_slice_from (index (data_concat self)) w in
  lift (DataFrame_of_array output data_col (Some data_index)).

(** *** getResult *)

Definition getResult (self : Alignment) : M Weights (DataFrame V) :=
  model ← lift (match config self !! "model" with
                | Some v => Ok v
                | None => Raise "KeyError"
                end);
  parameter ← lift (match config self !! "parameter" with
                    | Some v => Ok v
                    | None => Raise "KeyError"
                    end);
  if decide (model = CScalar (VStr "up")) then
    upsampling (data_concat self) parameter
  else if decide (model = CScalar (VStr "down")) then
    mret (downsampling (data_concat self))
  else if decide (model = CScalar (VStr "RNN_AE")) then
    RNN_AE self (data_concat self) parameter
  else
    print "Not Available";;
    raise "UnboundLocalError".

End Alignment.

(** ** Concrete tables and a deterministic trainer

    Data for the examples below.  Cells are integers here; [series]
    builds a source whose every cell holds the label of its row. *)

Definition series (cols : list string) (idx : list Z) : DataFrame Z :=
  {| columns := cols;
     rows := map (fun z => (z, map (fun _ => Some z) cols)) idx |}.

(** Sources with disjoint index ranges. *)
Definition early : DataFrame Z := series ["a"] [0; 1].
Definition late : DataFrame Z := series ["b"] [5; 6].

(** A fine and a coarse source over the labels 5..8. *)
Definition fine : DataFrame Z := series ["a"] [5; 6; 7; 8].
Definition coarse : DataFrame Z := series ["b"] [6; 8].

(** A fine and a coarse source whose labels start at 0. *)
Definition minutes : DataFrame Z := series ["a"] [0; 1; 2; 3; 4].
Definition evens : DataFrame Z := series ["b"] [0; 2; 4].

(** The overlap table of [minutes] and [evens]: the coarse source has no
    value at the odd labels. *)
Definition overlap_gaps : DataFrame Z :=
  {| columns := ["a"; "b"];
     rows := [(0, [Some 0; Some 0]); (1, [Some 1; None]); (2, [Some 2; Some 2]);
              (3, [Some 3; None]); (4, [Some 4; Some 4])] |}.

(** Sources whose labels interleave, the first starting later. *)
Definition odds : DataFrame Z := series ["a"] [1; 3].
Definition dense : DataFrame Z := series ["b"] [0; 1; 2; 3].

(** A table with a cell that single precision cannot hold. *)
Definition precise : DataFrame Z :=
  {| columns := ["a"];
     rows := [(0, [Some 16777217]); (1, [Some 1]); (2, [Some 2])] |}.

(** A table whose labels are not its positions, and a table whose second
    column holds no value. *)
Definition shifted_gaps : DataFrame Z :=
  {| columns := ["a"; "b"];
     rows := [(5, [Some 5; None]); (6, [Some 6; Some 6]); (7, [Some 7; None]);
              (8, [Some 8; Some 8])] |}.

Definition hollow : DataFrame Z :=
  {| columns := ["a"; "b"];
     rows := [(0, [Some 0; None]); (1, [Some 1; None])] |}.

(** Integer stand-ins for the floating-point parameters: the mean by
    integer division, no infinite number, the imputed value as the mean of
    the column, and the rounding to a 24-bit significand (to nearest, ties
    to even). *)
Definition int_mean (vs : list Z) : option Z :=
  Some (foldr Z.add 0 vs / Z.of_nat (length vs)).

Definition int_is_inf (v : Z) : bool := false.

Definition int_knn (n : Z) (df : DataFrame Z) (i j : nat) : Z :=
  default 0 (int_mean (present df j)).

Definition int_float32 (v : Z) : Z :=
  let m := Z.abs v in
  if m <? 2 ^ 24 then v
  else
    let k := 2 ^ (Z.log2 m - 23) in
    let q := m / k in
    let r := m mod k in
    let q' := if (k <? 2 * r) || ((k =? 2 * r) && Z.odd q) then q + 1 else q in
    Z.sgn v * (q' * k).

Definition knn_parameter (n : Z) : CfgVal :=
  CDict {[ "method" := VStr "knn"; "n_neighbors" := VInt n ]}.

Definition mean_parameter : CfgVal :=
  CDict {[ "method" := VStr "mean"; "n_neighbors" := VInt 5 ]}.

(** Nothing printed, nothing stored. *)
Definition empty_world : World Z := mkWorld [] ∅.

(** A deterministic trainer: the model is its embedding width, training
    returns it with an empty loss history, and every window is embedded
    as a vector of zeros. *)
Definition stub_autoencoder (n_features : nat) (emb_dim : PyVal) : result Z :=
  as_int emb_dim.

Definition stub_train (model : Z) (loader : DataLoader Z) (parameter : CfgVal)
    : result (Z * list Z) :=
  Ok (model, []).

Definition stub_state_dict (model : Z) : Z := model.

Definition stub_representation (model : Z) (loader : DataLoader Z)
    (parameter : CfgVal) : result (ndarray Z) :=
  Ok {| nd_ncols := Z.to_nat model;
        nd_data := map (fun _ => replicate (Z.to_nat model) (Some 0))
                       (dataset loader) |}.

Definition embedding_parameter : CfgVal :=
  CDict {[ "emb_dim" := VInt 3; "window_size" := VInt 2; "batch_size" := VInt 2;
           "epoch" := VInt 1; "mode" := VStr "train" ]}.

Definition aligner (model : string) : @Alignment Z :=
  {| config := {[ "model" := CScalar (VStr model);
                  "parameter" := embedding_parameter ]};
     x1 := minutes; x2 := evens; data_concat := overlap_gaps |}.

(** A source without rows, a trainer whose training fails, a trainer whose
    inference fails, and an aligner configured without a 'parameter'
    entry. *)
Definition no_rows : DataFrame Z := series ["a"] [].

Definition failing_train (model : Z) (loader : DataLoader Z) (parameter : CfgVal)
    : result (Z * list Z) :=
  Raise "RuntimeError".

Definition failing_representation (model : Z) (loader : DataLoader Z)
    (parameter : CfgVal) : result (ndarray Z) :=
  Raise "RuntimeError".

Definition bare_aligner (model : string) : @Alignment Z :=
  {| config := {[ "model" := CScalar (VStr model) ]};
     x1 := minutes; x2 := evens; data_concat := overlap_gaps |}.

(** * Properties *)

(** Inversion of a successful run: case analysis on the first result the
    run depends on, dropping the branch that raises. *)
Ltac step_run H :=
  match type of H with
  | context [match ?r with Ok _ => _ | Raise _ => _ end] =>
      let E := fresh "E" in
      destruct r eqn:E; [| discriminate H]
  end.

(** ** Slices and index bounds *)

Section SliceFacts.

Context {A : Type}.
Implicit Types l : list A.

Lemma slice_bound_range n x : 0 <= n -> 0 <= slice_bound n x <= n.
Proof. unfold slice_bound. destruct (Z.ltb_spec x 0); lia. Qed.

Lemma slice_bound_inner n x : 0 <= x <= n -> slice_bound n x = x.
Proof. unfold slice_bound. destruct (Z.ltb_spec x 0); lia. Qed.

Lemma slice_bound_mono n x y : 0 <= y <= x -> slice_bound n y <= slice_bound n x.
Proof.
  unfold slice_bound.
  destruct (Z.ltb_spec x 0), (Z.ltb_spec y 0); lia.
Qed.

(** A slice whose stop is not negative and not after its start is empty. *)
Lemma py_slice_empty l a b : 0 <= b <= a -> py_slice l a b = [].
Proof.
  intros H. unfold py_slice.
  pose proof (slice_bound_mono (Z.of_nat (length l)) a b H).
  replace (Z.to_nat _) with O by lia. reflexivity.
Qed.

(** A slice inside the sequence. *)
Lemma py_slice_inner l a b :
  0 <= a <= b -> b <= Z.of_nat (length l) ->
  py_slice l a b = take (Z.to_nat (b - a)) (drop (Z.to_nat a) l).
Proof.
  intros Ha Hb. unfold py_slice.
  rewrite !slice_bound_inner by lia. reflexivity.
Qed.

Lemma py_slice_from_inner l a :
  0 <= a <= Z.of_nat (length l) -> py_slice_from l a = drop (Z.to_nat a) l.
Proof.
  intros Ha. unfold py_slice_from. rewrite slice_bound_inner by lia. reflexivity.
Qed.

Lemma elem_of_py_slice l a b x : x ∈ py_slice l a b -> x ∈ l.
Proof.
  unfold py_slice. intros H.
  apply elem_of_take in H as (i & H & _).
  rewrite lookup_drop in H. eapply list_elem_of_lookup_2, H.
Qed.

End SliceFacts.

Lemma foldl_min_spec z l :
  foldl Z.min z l ∈ z :: l /\ Forall (fun x => foldl Z.min z l <= x) (z :: l).
Proof.
  revert z. induction l as [|y l IH]; intros z; simpl.
  - split; [left | repeat constructor; lia].
  - destruct (IH (Z.min z y)) as [Hin Hall].
    apply Forall_cons in Hall as [Hm Hall]. split.
    + apply elem_of_cons in Hin as [Hin | Hin].
      * rewrite Hin. destruct (Z.min_spec z y) as [[_ ->] | [_ ->]];
          [left | right; left].
      * right; right; exact Hin.
    + constructor; [lia|]. constructor; [lia|]. exact Hall.
Qed.

Lemma foldl_max_spec z l :
  foldl Z.max z l ∈ z :: l /\ Forall (fun x => x <= foldl Z.max z l) (z :: l).
Proof.
  revert z. induction l as [|y l IH]; intros z; simpl.
  - split; [left | repeat constructor; lia].
  - destruct (IH (Z.max z y)) as [Hin Hall].
    apply Forall_cons in Hall as [Hm Hall]. split.
    + apply elem_of_cons in Hin as [Hin | Hin].
      * rewrite Hin. destruct (Z.max_spec z y) as [[_ ->] | [_ ->]];
          [right; left | left].
      * right; right; exact Hin.
    + constructor; [lia|]. constructor; [lia|]. exact Hall.
Qed.

Section IndexFacts.

Context {V : Type}.

Lemma index_min_spec l m :
  index_min l = Some m -> m ∈ l /\ Forall (fun x => m <= x) l.
Proof.
  destruct l as [|z l]; [discriminate|]. simpl. intros [= <-].
  apply foldl_min_spec.
Qed.

Lemma index_max_spec l m :
  index_max l = Some m -> m ∈ l /\ Forall (fun x => x <= m) l.
Proof.
  destruct l as [|z l]; [discriminate|]. simpl. intros [= <-].
  apply foldl_max_spec.
Qed.

Lemma index_min_le_max l lo hi :
  index_min l = Some lo -> index_max l = Some hi -> lo <= hi.
Proof.
  intros [Hlo _]%index_min_spec [_ Hhi]%index_max_spec.
  rewrite Forall_forall in Hhi. apply Hhi. exact Hlo.
Qed.

(** Two frames over one index cannot have disjoint index ranges. *)
Lemma disjoint_ranges_differ (x1 x2 : DataFrame V) v1_min v2_min v1_max v2_max :
  index_min (index x1) = Some v1_min -> index_min (index x2) = Some v2_min ->
  index_max (index x1) = Some v1_max -> index_max (index x2) = Some v2_max ->
  Z.min v1_max v2_max < Z.max v1_min v2_min ->
  index x1 <> index x2.
Proof.
  intros H1 H2 H3 H4 Hlt Heq. rewrite <- Heq in H2, H4.
  pose proof (index_min_le_max _ _ _ H1 H3). simplify_eq. lia.
Qed.

Lemma concat_outer_columns (x1 x2 t : DataFrame V) :
  concat_outer x1 x2 = Ok t -> columns t = columns x1 ++ columns x2.
Proof.
  unfold concat_outer. intros H.
  repeat case_match; simplify_eq; reflexivity.
Qed.

End IndexFacts.

(** ** The overlap resolver *)

Section OverlapFacts.

Context {V : Type}.

(** C2 (amended).  For two sources with distinct, non-negative labels and
    disjoint index ranges, [getOverlapData] raises nothing: it returns the
    table that has the columns of both sources and no row. *)
Theorem getOverlapData_disjoint (x1 x2 : DataFrame V) v1_min v2_min v1_max v2_max :
  index_min (index x1) = Some v1_min -> index_min (index x2) = Some v2_min ->
  index_max (index x1) = Some v1_max -> index_max (index x2) = Some v2_max ->
  NoDup (index x1) -> NoDup (index x2) ->
  Forall (fun z => 0 <= z) (index x1 ++ index x2) ->
  Z.min v1_max v2_max < Z.max v1_min v2_min ->
  getOverlapData x1 x2 = Ok {| columns := columns x1 ++ columns x2; rows := [] |}.
Proof.
  intros H1 H2 H3 H4 Hd1 Hd2 Hpos Hlt.
  pose proof (disjoint_ranges_differ _ _ _ _ _ _ H1 H2 H3 H4 Hlt) as Hne.
  apply Forall_app in Hpos as [Hp1 Hp2].
  assert (0 <= v1_max) as Hm1.
  { apply index_max_spec in H3 as [Hin _].
    rewrite Forall_forall in Hp1. exact (Hp1 _ Hin). }
  assert (0 <= v2_max) as Hm2.
  { apply index_max_spec in H4 as [Hin _].
    rewrite Forall_forall in Hp2. exact (Hp2 _ Hin). }
  unfold getOverlapData, concat_outer.
  rewrite H1, H2, H3, H4.
  destruct (decide (index x1 = index x2)) as [Heq|_]; [contradiction|].
  rewrite !bool_decide_eq_true_2 by assumption. simpl.
  unfold iloc. simpl. rewrite py_slice_empty by lia. reflexivity.
Qed.

End OverlapFacts.

Lemma getOverlapData_disjoint_witness :
  getOverlapData early late = Ok {| columns := ["a"; "b"]; rows := [] |}.
Proof.
  apply (getOverlapData_disjoint early late 0 5 1 6);
    try reflexivity; try lia.
  - apply (bool_decide_unpack _). vm_compute. exact I.
  - apply (bool_decide_unpack _). vm_compute. exact I.
  - apply (bool_decide_unpack _). vm_compute. exact I.
Defined.

(** C2, as stated, fails: the ranges 0..1 and 5..6 are disjoint, and the
    resolver raises no error at all. *)
Lemma getOverlapData_disjoint_no_error :
  ~ exists e, getOverlapData early late = Raise e.
Proof. intros [e He]. vm_compute in He. discriminate He. Qed.

(** *** Positions against labels *)

Section OverlapByPosition.

Context {V : Type}.

(** A slice with bounds that are not negative. *)
Lemma py_slice_clip {A} (l : list A) a b :
  0 <= a -> 0 <= b ->
  py_slice l a b = take (Z.to_nat (b - a)) (drop (Z.to_nat a) l).
Proof.
  intros Ha Hb. unfold py_slice.
  set (n := Z.of_nat (length l)).
  unfold slice_bound.
  replace (a <? 0) with false by (symmetry; apply Z.ltb_ge; lia).
  replace (b <? 0) with false by (symmetry; apply Z.ltb_ge; lia).
  destruct (Z.le_gt_cases n a) as [Hge|Hlt].
  - rewrite !drop_ge by lia. rewrite !take_nil. reflexivity.
  - rewrite (Z.min_l a n) by lia.
    destruct (Z.le_gt_cases b n) as [Hbn|Hbn].
    + rewrite (Z.min_l b n) by lia. reflexivity.
    + rewrite (Z.min_r b n) by lia.
      rewrite !take_ge by (rewrite length_drop; lia). reflexivity.
Qed.

(** On rows labelled k, k+1, ..., the rows with a label in [a, c] are a
    contiguous run. *)
Lemma filter_labels_run (rs : list (Row V)) (k a c : Z) :
  map fst rs = map (fun i => k + Z.of_nat i) (seq 0 (length rs)) ->
  filter (fun r : Row V => a <= fst r <= c) rs =
    take (Z.to_nat (c + 1 - Z.max a k)) (drop (Z.to_nat (a - k)) rs).
Proof.
  revert k. induction rs as [|r rs IH]; intros k Hlab.
  - rewrite drop_nil, take_nil. reflexivity.
  - cbn [length seq map] in Hlab. injection Hlab as Hk Hrest.
    rewrite Z.add_0_r in Hk.
    assert (map fst rs = map (fun i => (k + 1) + Z.of_nat i) (seq 0 (length rs)))
      as Hrest'.
    { rewrite Hrest, <- fmap_S_seq, <- list_fmap_compose.
      apply list_fmap_ext. intros _ i _. cbn. lia. }
    specialize (IH (k + 1) Hrest').
    rewrite filter_cons, Hk, IH.
    destruct (Z.le_gt_cases a k) as [Hak|Hak].
    + replace (Z.to_nat (a - k)) with O by lia.
      replace (Z.to_nat (a - (k + 1))) with O by lia.
      rewrite !drop_0.
      destruct (Z.le_gt_cases k c) as [Hkc|Hkc].
      * rewrite decide_True by lia.
        replace (Z.to_nat (c + 1 - Z.max a k))
          with (S (Z.to_nat (c + 1 - Z.max a (k + 1)))) by lia.
        reflexivity.
      * rewrite decide_False by lia.
        replace (Z.to_nat (c + 1 - Z.max a k)) with O by lia.
        replace (Z.to_nat (c + 1 - Z.max a (k + 1))) with O by lia.
        reflexivity.
    + rewrite decide_False by lia.
      replace (Z.to_nat (a - k)) with (S (Z.to_nat (a - (k + 1)))) by lia.
      replace (Z.max a (k + 1)) with (Z.max a k) by lia.
      reflexivity.
Qed.

(** When the labels are the positions 0..n-1, the positional slice is the
    label range. *)
Lemma py_slice_labels (rs : list (Row V)) (a c : Z) :
  map fst rs = range (Z.of_nat (length rs)) ->
  0 <= a -> 0 <= c + 1 ->
  py_slice rs a (c + 1) = filter (fun r : Row V => a <= fst r <= c) rs.
Proof.
  intros Hlab Ha Hc.
  rewrite py_slice_clip by lia.
  rewrite (filter_labels_run rs 0 a c).
  - rewrite Z.max_l by lia. rewrite Z.sub_0_r. reflexivity.
  - rewrite Hlab. unfold range. rewrite Nat2Z.id. reflexivity.
Qed.

Lemma elem_of_union_index x i1 i2 :
  x ∈ union_index i1 i2 <-> x ∈ i1 \/ x ∈ i2.
Proof.
  unfold union_index. rewrite elem_of_app, list_elem_of_filter.
  destruct (decide (x ∈ i1)); tauto.
Qed.

Lemma zip_with_labels (rs1 rs2 : list (Row V)) :
  length rs1 = length rs2 ->
  map fst (zip_with (fun r1 r2 : Row V => (fst r1, snd r1 ++ snd r2)) rs1 rs2)
  = map fst rs1.
Proof.
  revert rs2. induction rs1 as [|r1 rs1 IH]; intros [|r2 rs2] Hlen;
    try discriminate Hlen; [reflexivity|].
  cbn. f_equal. apply IH. injection Hlen as Hlen. exact Hlen.
Qed.

(** The outer join has every label of its sources. *)
Lemma concat_outer_labels (x1 x2 joined : DataFrame V) l :
  concat_outer x1 x2 = Ok joined ->
  l ∈ index x1 \/ l ∈ index x2 -> l ∈ index joined.
Proof.
  unfold concat_outer. intros Hj Hl.
  destruct (decide (index x1 = index x2)) as [Heq|Hne].
  - injection Hj as <-.
    assert (index {| columns := columns x1 ++ columns x2;
                     rows := zip_with (fun r1 r2 : Row V => (fst r1, snd r1 ++ snd r2))
                                      (rows x1) (rows x2) |} = index x1) as ->.
    { apply zip_with_labels. apply (f_equal length) in Heq.
      unfold index in Heq. rewrite !length_map in Heq. exact Heq. }
    rewrite <- Heq in Hl. tauto.
  - destruct (_ && _); [|discriminate Hj].
    injection Hj as <-.
    assert (index {| columns := columns x1 ++ columns x2;
                     rows := map (fun l => (l, row_at x1 l ++ row_at x2 l))
                                 (union_index (index x1) (index x2)) |}
            = union_index (index x1) (index x2)) as ->.
    { unfold index at 1. cbn [rows]. rewrite <- list_fmap_compose.
      apply list_fmap_id. }
    apply elem_of_union_index, Hl.
Qed.

(** X3.  The resolver meets the label-range table of the specification
    when the labels of the joined table are its positions 0..n-1: it then
    returns exactly the joined rows whose label lies between the later
    minimum and the earlier maximum. *)
Lemma getOverlapData_by_label (x1 x2 joined : DataFrame V) :
  concat_outer x1 x2 = Ok joined ->
  index joined = RangeIndex (nrows joined) ->
  getOverlapData x1 x2 = overlap_by_label x1 x2.
Proof.
  intros Hj Hlab. unfold getOverlapData, overlap_by_label. rewrite Hj.
  cbn [rbind].
  destruct (index_min (index x1)) as [v1_min|] eqn:H1; [|reflexivity].
  destruct (index_min (index x2)) as [v2_min|] eqn:H2; [|reflexivity].
  destruct (index_max (index x1)) as [v1_max|] eqn:H3; [|reflexivity].
  destruct (index_max (index x2)) as [v2_max|] eqn:H4; [|reflexivity].
  assert (forall l, l ∈ index x1 \/ l ∈ index x2 -> 0 <= l) as Hpos.
  { intros l Hl. pose proof (concat_outer_labels _ _ _ _ Hj Hl) as Hin.
    rewrite Hlab in Hin. unfold RangeIndex, range in Hin.
    apply list_elem_of_fmap in Hin as (i & -> & _). lia. }
  apply index_min_spec in H1 as [H1 _]. apply index_min_spec in H2 as [H2 _].
  apply index_max_spec in H3 as [H3 _]. apply index_max_spec in H4 as [H4 _].
  pose proof (Hpos _ (or_introl H1)). pose proof (Hpos _ (or_intror H2)).
  pose proof (Hpos _ (or_introl H3)). pose proof (Hpos _ (or_intror H4)).
  unfold iloc. do 2 f_equal.
  apply py_slice_labels; [exact Hlab | lia | lia].
Qed.

End OverlapByPosition.

(** The resolver on labels that start at 0. *)
Example getOverlapData_minutes_evens :
  getOverlapData minutes evens = Ok overlap_gaps.
Proof. vm_compute. reflexivity. Qed.

(** The join keeps the labels in order of appearance (1, 3, 0, 2 here),
    and the slice from position 1 to position 3 takes its last three
    rows. *)
Example getOverlapData_odds_dense :
  getOverlapData odds dense
  = Ok {| columns := ["a"; "b"];
          rows := [(3, [Some 3; Some 3]); (0, [None; Some 0]); (2, [None; Some 2])] |}.
Proof. vm_compute. reflexivity. Qed.

(** C3.  The resolver slices the joined table by row position, with the
    index labels as positions.  For the labels 5..8 against 6 and 8 the
    label range is 6..8, three rows of the join; the resolver returns no
    row. *)
Theorem getOverlapData_positions_not_labels :
  getOverlapData fine coarse = Ok {| columns := ["a"; "b"]; rows := [] |} /\
  overlap_by_label fine coarse =
    Ok {| columns := ["a"; "b"];
          rows := [(6, [Some 6; Some 6]); (7, [Some 7; None]); (8, [Some 8; Some 8])] |}.
Proof. split; vm_compute; reflexivity. Qed.

(** ** The window builder *)

Section WindowFacts.

Context {V : Type}.
Implicit Types data : ndarray V.
Implicit Types ds : list (ndarray V).

Lemma range_lookup k i :
  (i < Z.to_nat k)%nat -> range k !! i = Some (Z.of_nat i).
Proof.
  intros Hi. unfold range. rewrite list_lookup_fmap, lookup_seq_lt by exact Hi.
  reflexivity.
Qed.

Lemma range_length k : length (range k) = Z.to_nat k.
Proof. unfold range. rewrite length_map, length_seq. reflexivity. Qed.

Lemma make_windows_length data w :
  length (make_windows data w) = Z.to_nat (Z.of_nat (length (nd_data data)) - w).
Proof. unfold make_windows. rewrite length_map. apply range_length. Qed.

(** The window at start offset [i] is the [w] rows from row [i] on. *)
Lemma make_windows_lookup data w i :
  0 <= w -> (i < length (nd_data data) - Z.to_nat w)%nat ->
  make_windows data w !! i =
    Some {| nd_ncols := nd_ncols data;
            nd_data := take (Z.to_nat w) (drop i (nd_data data)) |}.
Proof.
  intros Hw Hi. unfold make_windows.
  rewrite list_lookup_fmap, range_lookup by lia. simpl.
  unfold window. rewrite py_slice_inner by lia.
  replace (Z.to_nat (Z.of_nat i + w - Z.of_nat i)) with (Z.to_nat w) by lia.
  rewrite Nat2Z.id. reflexivity.
Qed.

Lemma make_windows_rows data w :
  0 <= w ->
  Forall (fun win => length (nd_data win) = Z.to_nat w) (make_windows data w).
Proof.
  intros Hw. apply Forall_lookup. intros i win Hwin.
  pose proof (lookup_lt_Some _ _ _ Hwin) as Hlt.
  rewrite make_windows_length in Hlt.
  rewrite make_windows_lookup in Hwin by lia.
  injection Hwin as <-. simpl.
  rewrite length_take, length_drop. lia.
Qed.

Lemma np_array_uniform ds k :
  Forall (fun win => length (nd_data win) = k) ds -> np_array ds = Ok ds.
Proof.
  intros Hall. destruct ds as [|w0 ds']; [reflexivity|].
  unfold np_array.
  replace (forallb _ _) with true; [reflexivity|].
  symmetry. apply forallb_forall. intros win Hin.
  apply list_elem_of_In in Hin.
  rewrite Forall_forall in Hall.
  rewrite (Hall win Hin), (Hall w0) by left.
  apply Nat.eqb_refl.
Qed.

(** A pass with a positive batch size hands out every pending sample, in
    order, provided it is given one step per sample. *)
Lemma iter_all_concat fuel (it : LoaderIter V) :
  (0 < it_batch it)%nat -> (length (it_pending it) <= fuel)%nat ->
  concat (iter_all fuel it) = it_pending it.
Proof.
  revert it. induction fuel as [|fuel IH]; intros [pending b] Hb Hlen; simpl in *.
  - destruct pending; [reflexivity | simpl in Hlen; lia].
  - unfold iter_next. cbn [it_pending it_batch].
    destruct pending as [|x pending]; [reflexivity|].
    cbn [concat]. rewrite IH.
    + cbn [it_pending]. apply take_drop.
    + exact Hb.
    + cbn [it_pending]. rewrite length_drop. cbn [length] in *. lia.
Qed.

Lemma batches_concat (ld : DataLoader V) perm :
  (0 < batch_size ld)%nat ->
  concat (batches ld perm) = it_pending (loader_iter ld perm).
Proof.
  intros Hb. unfold batches. apply iter_all_concat; [exact Hb | lia].
Qed.

Lemma omap_lookup_seq_from (pre ds : list (ndarray V)) :
  omap (fun i => (pre ++ ds) !! i) (seq (length pre) (length ds)) = ds.
Proof.
  revert pre. induction ds as [|x ds IH]; intros pre; [reflexivity|].
  simpl. rewrite list_lookup_middle by reflexivity. f_equal.
  specialize (IH (pre ++ [x])).
  rewrite <- app_assoc, length_app, Nat.add_1_r in IH. exact IH.
Qed.

(** Looking up every position in order gives the data set back. *)
Lemma omap_lookup_seq ds :
  omap (fun i => ds !! i) (seq 0 (length ds)) = ds.
Proof. exact (omap_lookup_seq_from [] ds). Qed.

End WindowFacts.

Section WindowBuilder.

Context {V : Type}.
Variable float32 : V -> V.

Lemma torch_Tensor_length (ws : list (ndarray V)) :
  length (torch_Tensor float32 ws) = length ws.
Proof. apply length_map. Qed.

(** C4.  On a table of N rows and C columns, with a window size w such
    that 0 < w < N (and a positive batch size), [get_loaders] returns two
    loaders over the same N - w windows.  The window at start offset i,
    for i from 0 to N - w - 1, holds the w rows from row i on, every cell
    rounded to single precision, and has the shape [w, C].  Each pass over
    the inference loader yields the same batches, which together are the
    windows in order; each pass over the training loader yields the
    windows in the order its sampler draws. *)
Theorem get_loaders_windows (data : DataFrame V) (w b : Z) :
  wf_frame data ->
  0 < w < Z.of_nat (nrows data) ->
  0 < b ->
  exists train_loader inference_loader,
    get_loaders float32 data (VInt w) (VInt b) = Ok (train_loader, inference_loader) /\
    dataset train_loader = dataset inference_loader /\
    length (dataset inference_loader) = (nrows data - Z.to_nat w)%nat /\
    (forall i, (i < nrows data - Z.to_nat w)%nat ->
       exists win, dataset inference_loader !! i = Some win /\
         nd_data win = map (map (fmap float32))
                           (take (Z.to_nat w) (drop i (map snd (rows data)))) /\
         length (nd_data win) = Z.to_nat w /\
         nd_ncols win = length (columns data) /\
         Forall (fun r => length r = length (columns data)) (nd_data win)) /\
    (forall perm1 perm2,
       batches inference_loader perm1 = batches inference_loader perm2 /\
       concat (batches inference_loader perm1) = dataset inference_loader) /\
    (forall perm, Permutation perm (seq 0 (nrows data - Z.to_nat w)) ->
       Permutation (concat (batches train_loader perm)) (dataset train_loader)).
Proof.
  intros Hwf Hw Hb. unfold nrows in *.
  set (ws := make_windows (values data) w).
  set (ds := torch_Tensor float32 ws).
  assert (length (nd_data (values data)) = length (rows data)) as Hn
    by (simpl; apply length_map).
  assert (length ds = (length (rows data) - Z.to_nat w)%nat) as Hlen.
  { unfold ds, ws. rewrite torch_Tensor_length, make_windows_length, Hn. lia. }
  exists {| dataset := ds; batch_size := Z.to_nat b; shuffle := true |},
         {| dataset := ds; batch_size := Z.to_nat b; shuffle := false |}.
  split; [|split; [reflexivity|split; [exact Hlen|split; [|split]]]].
  - unfold get_loaders. cbn [as_int mbind result_bind rbind]. fold ws.
    rewrite (np_array_uniform ws (Z.to_nat w))
      by (apply make_windows_rows; lia).
    cbn [mbind result_bind rbind]. fold ds. unfold DataLoader_new.
    replace (length ds =? 0)%nat with false by (symmetry; apply Nat.eqb_neq; lia).
    replace (0 <? b) with true by (symmetry; apply Z.ltb_lt; lia).
    reflexivity.
  - intros i Hi. cbn [dataset]. unfold ds, ws, torch_Tensor.
    rewrite list_lookup_fmap.
    rewrite make_windows_lookup; [|lia|rewrite Hn; exact Hi].
    eexists. split; [reflexivity|]. cbn [nd_data nd_ncols values].
    split; [reflexivity|]. split; [|split; [reflexivity|]].
    + rewrite length_map, length_take, length_drop, length_map. lia.
    + apply Forall_fmap, Forall_take, Forall_drop, Forall_fmap.
      unfold wf_frame in Hwf. eapply Forall_impl; [exact Hwf|].
      intros r Hr. cbn [compose]. rewrite length_map. exact Hr.
  - intros perm1 perm2. split; [reflexivity|].
    rewrite batches_concat by (cbn [batch_size]; lia). reflexivity.
  - intros perm Hperm.
    rewrite batches_concat by (cbn [batch_size]; lia).
    unfold loader_iter. cbn [shuffle dataset it_pending].
    rewrite <- Hlen in Hperm. rewrite Hperm, omap_lookup_seq. reflexivity.
Qed.

(** C5 (amended).  When the window size is at least the number of rows,
    [get_loaders] builds no window and makes no check of the window size;
    the call fails with the ValueError of the shuffling DataLoader, which
    refuses an empty data set. *)
Theorem get_loaders_no_window (data : DataFrame V) (w : Z) (b : PyVal) :
  Z.of_nat (nrows data) <= w ->
  make_windows (values data) w = [] /\
  get_loaders float32 data (VInt w) b = Raise "ValueError".
Proof.
  intros Hw.
  assert (make_windows (values data) w = []) as Hnil.
  { apply length_zero_iff_nil. rewrite make_windows_length. simpl.
    rewrite length_map. unfold nrows in *. lia. }
  split; [exact Hnil|].
  unfold get_loaders. cbn [as_int mbind result_bind rbind].
  rewrite Hnil. reflexivity.
Qed.

End WindowBuilder.

Lemma get_loaders_windows_witness :
  exists train_loader inference_loader win,
    get_loaders int_float32 precise (VInt 1) (VInt 1)
      = Ok (train_loader, inference_loader) /\
    length (dataset inference_loader) = 2%nat /\
    dataset inference_loader !! 0%nat = Some win /\
    nd_data win = [[Some 16777216]].
Proof.
  destruct (get_loaders_windows int_float32 precise 1 1)
    as (tl & il & H1 & _ & H2 & H3 & _).
  - apply (bool_decide_unpack _). vm_compute. exact I.
  - vm_compute. split; reflexivity.
  - lia.
  - destruct (H3 0%nat) as (win & Hwin & Hdata & _); [vm_compute; lia|].
    exists tl, il, win.
    split; [exact H1 | split; [exact H2 | split; [exact Hwin | exact Hdata]]].
Defined.

Lemma get_loaders_no_window_witness :
  get_loaders int_float32 early (VInt 2) (VInt 1) = Raise "ValueError".
Proof.
  apply (get_loaders_no_window int_float32 early 2 (VInt 1)). vm_compute. discriminate.
Defined.

(** C5, as stated, fails: with two rows and a window size of two the call
    raises ValueError, not InvalidWindowSizeError. *)
Lemma get_loaders_not_InvalidWindowSizeError :
  get_loaders int_float32 early (VInt 2) (VInt 1) <> Raise "InvalidWindowSizeError".
Proof. vm_compute. discriminate. Qed.

(** ** Frames built from arrays, and the two resampling policies *)

Section PolicyFacts.

Context {V : Type}.
Variable mean : list V -> option V.
Variable is_inf : V -> bool.
Variable knn_value : Z -> DataFrame V -> nat -> nat -> V.
Context {Weights : Type}.

Lemma RangeIndex_length n : length (RangeIndex n) = n.
Proof. unfold RangeIndex. rewrite range_length. lia. Qed.

Lemma DataFrame_of_array_inv (arr : ndarray V) cols idx df :
  DataFrame_of_array arr cols idx = Ok df ->
  columns df = cols /\
  index df = default (RangeIndex (length (nd_data arr))) idx /\
  nrows df = length (nd_data arr) /\
  map snd (rows df) = nd_data arr.
Proof.
  unfold DataFrame_of_array, index, nrows.
  destruct (_ && _) eqn:Hshape; [|discriminate].
  apply andb_true_iff in Hshape as [_ Hlen%Nat.eqb_eq].
  intros [= <-]. cbn [columns rows].
  repeat split.
  - apply fst_zip. lia.
  - rewrite length_zip. lia.
  - apply snd_zip. lia.
Qed.

Lemma KNNImputer_rows v (df : DataFrame V) arr :
  KNNImputer_fit_transform is_inf knn_value v df = Ok arr ->
  length (nd_data arr) = nrows df.
Proof.
  unfold KNNImputer_fit_transform. destruct v as [n|s]; [|discriminate].
  repeat case_match; try discriminate.
  intros [= <-]. cbn [nd_data]. apply length_imap.
Qed.

Lemma filter_keeps_all {A} (P : A -> Prop) `{!forall x, Decision (P x)} (l : list A) :
  Forall P l -> filter P l = l.
Proof.
  induction 1 as [|x l Hx _ IH]; [reflexivity|].
  rewrite filter_cons, decide_True by exact Hx. f_equal. exact IH.
Qed.

Lemma filter_length_all {A} (P : A -> Prop) `{!forall x, Decision (P x)} (l : list A) :
  length (filter P l) = length l -> Forall P l.
Proof.
  induction l as [|x l IH]; [constructor|].
  rewrite filter_cons. pose proof (length_filter P l) as Hle.
  case_decide; simpl; intros Hlen; [|lia].
  constructor; [assumption | apply IH; lia].
Qed.

(** The steps of the imputer on a positive neighbour count and a table
    that passes the validation. *)
Lemma KNNImputer_valid n (df : DataFrame V) :
  0 < n -> has_inf is_inf df = false -> nrows df <> O -> columns df <> [] ->
  KNNImputer_fit_transform is_inf knn_value (VInt n) df =
    let keep := filter (fun j => present df j <> [])
                       (seq 0 (length (columns df))) in
    Ok {| nd_ncols := length keep;
          nd_data := imap (fun i (r : Row V) =>
                             map (fun j => Some (default (knn_value n df i j)
                                                         (mjoin (snd r !! j))))
                                 keep)
                          (rows df) |}.
Proof.
  intros Hn Hinf Hrows Hcols. unfold KNNImputer_fit_transform.
  replace (n <=? 0) with false by (symmetry; apply Z.leb_gt; lia).
  rewrite Hinf.
  replace (nrows df =? 0)%nat with false by (symmetry; apply Nat.eqb_neq; lia).
  replace (length (columns df) =? 0)%nat with false; [reflexivity|].
  symmetry. apply Nat.eqb_neq. destruct (columns df); [done | simpl; lia].
Qed.

(** When every column holds a value, the imputer keeps every column. *)
Lemma KNNImputer_full n (df : DataFrame V) :
  0 < n -> has_inf is_inf df = false -> nrows df <> O -> columns df <> [] ->
  (forall j, (j < length (columns df))%nat -> present df j <> []) ->
  exists arr, KNNImputer_fit_transform is_inf knn_value (VInt n) df = Ok arr /\
              nd_ncols arr = length (columns df) /\
              length (nd_data arr) = nrows df.
Proof.
  intros Hn Hinf Hrows Hcols Hfull.
  rewrite (KNNImputer_valid n df Hn Hinf Hrows Hcols). cbn zeta.
  eexists. split; [reflexivity|]. cbn [nd_ncols nd_data].
  split; [|apply length_imap].
  rewrite filter_keeps_all; [apply length_seq|].
  apply Forall_forall. intros j Hj%elem_of_seq. apply Hfull. lia.
Qed.

(** When a column holds no value, the imputer drops it. *)
Lemma KNNImputer_hollow n (df : DataFrame V) j :
  0 < n -> has_inf is_inf df = false -> nrows df <> O ->
  (j < length (columns df))%nat -> present df j = [] ->
  exists arr, KNNImputer_fit_transform is_inf knn_value (VInt n) df = Ok arr /\
              nd_ncols arr <> length (columns df).
Proof.
  intros Hn Hinf Hrows Hj Hnil.
  rewrite (KNNImputer_valid n df Hn Hinf Hrows)
    by (destruct (columns df); [simpl in Hj; lia | discriminate]).
  cbn zeta. eexists. split; [reflexivity|]. cbn [nd_ncols]. intros Hlen.
  assert (Forall (fun j => present df j <> []) (seq 0 (length (columns df))))
    as Hall by (eapply filter_length_all; rewrite length_seq; exact Hlen).
  rewrite Forall_forall in Hall.
  apply (Hall j); [|exact Hnil]. apply elem_of_seq. lia.
Qed.

(** The shape of an [upsampling] call that reaches the k-nearest-neighbour
    imputer, or the mean fill. *)
Lemma upsampling_knn (dc : DataFrame V) parameter v (wld : World Weights) :
  subscript parameter "method" = Ok (VStr "knn") ->
  subscript parameter "n_neighbors" = Ok v ->
  upsampling mean is_inf knn_value dc parameter wld =
    (rbind (KNNImputer_fit_transform is_inf knn_value v dc)
           (fun arr => DataFrame_of_array arr (columns dc) None), wld).
Proof.
  intros Hm Hk. unfold upsampling, mbind, M_bind, lift.
  rewrite Hm, Hk. cbn.
  destruct (KNNImputer_fit_transform is_inf knn_value v dc); reflexivity.
Qed.

Lemma upsampling_mean (dc : DataFrame V) parameter v (wld : World Weights) :
  subscript parameter "method" = Ok (VStr "mean") ->
  subscript parameter "n_neighbors" = Ok v ->
  upsampling mean is_inf knn_value dc parameter wld = (Ok (fillna_mean mean dc), wld).
Proof.
  intros Hm Hk. unfold upsampling, mbind, M_bind, lift.
  rewrite Hm, Hk. reflexivity.
Qed.

(** Every table [upsampling] returns has the rows of its input. *)
Lemma upsampling_nrows (dc : DataFrame V) parameter (wld wld' : World Weights) up :
  upsampling mean is_inf knn_value dc parameter wld = (Ok up, wld') ->
  nrows up = nrows dc.
Proof.
  unfold upsampling, mbind, M_bind, lift. intros H.
  destruct (subscript parameter "method") as [m|] eqn:Hm; [|discriminate H].
  destruct (subscript parameter "n_neighbors") as [v|] eqn:Hk; [|discriminate H].
  cbn in H. repeat case_decide.
  - destruct (KNNImputer_fit_transform is_inf knn_value v dc) as [arr|] eqn:Harr;
      [|discriminate H].
    destruct (DataFrame_of_array arr (columns dc) None) as [df|] eqn:Hdf;
      [|discriminate H].
    injection H as <- _.
    apply DataFrame_of_array_inv in Hdf as (_ & _ & -> & _).
    eapply KNNImputer_rows, Harr.
  - injection H as <- _. unfold nrows, fillna_mean. cbn [rows].
    apply length_map.
  - discriminate H.
Qed.

(** A row of [x] at a label it does not have is all NaN. *)
Lemma row_at_complete (x : DataFrame V) l :
  columns x <> [] -> Forall is_Some (row_at x l) -> l ∈ index x.
Proof.
  intros Hcols. unfold row_at.
  destruct (find _ _) as [r|] eqn:Hfind.
  - intros _. apply find_some in Hfind as [Hin Hl%Z.eqb_eq].
    apply list_elem_of_In in Hin. unfold index.
    apply list_elem_of_fmap. exists r. split; [symmetry; exact Hl | exact Hin].
  - destruct (columns x) as [|c cols]; [done|]. simpl.
    intros [Hsome _]%Forall_cons. destruct Hsome as [? [=]].
Qed.

(** A complete row of the outer join is labelled in both sources. *)
Lemma concat_outer_complete (x1 x2 t : DataFrame V) (r : Row V) :
  concat_outer x1 x2 = Ok t ->
  columns x1 <> [] -> columns x2 <> [] ->
  r ∈ rows t -> complete r ->
  fst r ∈ index x1 /\ fst r ∈ index x2.
Proof.
  unfold concat_outer. intros Ht Hc1 Hc2 Hr Hfull.
  destruct (decide (index x1 = index x2)) as [Heq|Hne].
  - injection Ht as <-. cbn [rows] in Hr.
    apply elem_of_zip_with in Hr as (r1 & r2 & -> & Hr1 & _).
    cbn [fst]. rewrite <- Heq.
    split; apply list_elem_of_fmap; exists r1; split; done.
  - destruct (_ && _); [|discriminate Ht].
    injection Ht as <-. cbn [rows] in Hr.
    apply list_elem_of_fmap in Hr as (l & -> & _).
    unfold complete in Hfull. cbn [fst snd] in *.
    apply Forall_app in Hfull as [H1 H2].
    split; eapply row_at_complete; eassumption.
Qed.

Lemma getOverlapData_rows (x1 x2 t : DataFrame V) :
  getOverlapData x1 x2 = Ok t ->
  exists joined, concat_outer x1 x2 = Ok joined /\
                 forall r, r ∈ rows t -> r ∈ rows joined.
Proof.
  unfold getOverlapData. destruct (concat_outer x1 x2) as [joined|]; [|discriminate].
  cbn [rbind]. repeat case_match; try discriminate.
  intros [= <-]. exists joined. split; [reflexivity|].
  intros r. cbn [iloc rows]. apply elem_of_py_slice.
Qed.

End PolicyFacts.

Section Policies.

Context {V : Type}.
Variable mean : list V -> option V.
Variable is_inf : V -> bool.
Variable knn_value : Z -> DataFrame V -> nat -> nat -> V.
Context {Weights : Type}.

(** C9.  For the overlap table of two sources and every successful
    [upsampling] of it, the row count of [downsampling] is at most the row
    count of [upsampling], which is at most (indeed equal to) the row count
    of the overlap table.  When both are equalities, no row of the overlap
    table has a missing cell, and (the sources having at least one column
    each) every label of the overlap table is a label of both sources. *)
Theorem downsampling_le_upsampling (x1 x2 t : DataFrame V) parameter
    (wld wld' : World Weights) up :
  getOverlapData x1 x2 = Ok t ->
  upsampling mean is_inf knn_value t parameter wld = (Ok up, wld') ->
  (nrows (downsampling t) <= nrows up <= nrows t)%nat /\
  (nrows (downsampling t) = nrows up -> nrows up = nrows t ->
     Forall complete (rows t) /\
     (columns x1 <> [] -> columns x2 <> [] ->
        forall l, l ∈ index t -> l ∈ index x1 /\ l ∈ index x2)).
Proof.
  intros Ht Hup.
  pose proof (upsampling_nrows _ _ _ _ _ _ _ _ Hup) as Hrows.
  assert (nrows (downsampling t) <= nrows t)%nat as Hle.
  { unfold nrows, downsampling, dropna. cbn [rows]. apply length_filter. }
  split; [lia|]. intros Hdown _.
  assert (Forall complete (rows t)) as Hfull.
  { unfold nrows, downsampling, dropna in *. cbn [rows] in *.
    eapply filter_length_all. lia. }
  split; [exact Hfull|]. intros Hc1 Hc2 l Hl.
  destruct (getOverlapData_rows _ _ _ Ht) as (joined & Hjoin & Hsub).
  apply list_elem_of_fmap in Hl as (r & -> & Hr).
  eapply concat_outer_complete; [exact Hjoin | exact Hc1 | exact Hc2 | | ].
  - apply Hsub, Hr.
  - rewrite Forall_forall in Hfull. apply Hfull, Hr.
Qed.

(** C10 (amended).  With method knn, every table that [upsampling]
    returns has the positional index 0..n-1, whatever the labels of the
    overlap table were: the time index is dropped.  The call returns such
    a table for a positive neighbour count on a table with at least one
    row, no infinite cell and a value in every column, with or without
    missing cells; on such a table with a column that holds no value it
    raises ValueError.  With method mean the call returns the filled table
    on the index of the overlap table. *)
Theorem upsampling_knn_index (dc : DataFrame V) pk pm vk vm (wld : World Weights) :
  subscript pk "method" = Ok (VStr "knn") ->
  subscript pk "n_neighbors" = Ok vk ->
  subscript pm "method" = Ok (VStr "mean") ->
  subscript pm "n_neighbors" = Ok vm ->
  (forall out wld', upsampling mean is_inf knn_value dc pk wld = (Ok out, wld') ->
     index out = RangeIndex (nrows dc)) /\
  (forall n, vk = VInt n -> 0 < n -> has_inf is_inf dc = false ->
     nrows dc <> O -> columns dc <> [] ->
     (forall j, (j < length (columns dc))%nat -> present dc j <> []) ->
     exists out, upsampling mean is_inf knn_value dc pk wld = (Ok out, wld)) /\
  (forall n j, vk = VInt n -> 0 < n -> has_inf is_inf dc = false ->
     nrows dc <> O -> (j < length (columns dc))%nat -> present dc j = [] ->
     upsampling mean is_inf knn_value dc pk wld = (Raise "ValueError", wld)) /\
  upsampling mean is_inf knn_value dc pm wld = (Ok (fillna_mean mean dc), wld) /\
  index (fillna_mean mean dc) = index dc.
Proof.
  intros Hk1 Hk2 Hm1 Hm2.
  rewrite (upsampling_knn _ _ _ _ _ _ _ Hk1 Hk2).
  rewrite (upsampling_mean _ _ _ _ _ _ _ Hm1 Hm2).
  split; [|split; [|split; [|split; [reflexivity|]]]].
  - intros out wld' Hrun.
    destruct (KNNImputer_fit_transform is_inf knn_value vk dc) as [arr|] eqn:Harr;
      [|discriminate Hrun].
    cbn [rbind] in Hrun. injection Hrun as Hdf _.
    apply DataFrame_of_array_inv in Hdf as (_ & -> & _ & _).
    cbn [default]. f_equal. eapply KNNImputer_rows, Harr.
  - intros n -> Hn Hinf Hrows Hcols Hfull.
    destruct (KNNImputer_full is_inf knn_value n dc Hn Hinf Hrows Hcols Hfull)
      as (arr & -> & Hc & Hr).
    cbn [rbind]. unfold DataFrame_of_array. cbn [default].
    rewrite Hc, RangeIndex_length, !Nat.eqb_refl. cbn [andb].
    eexists. reflexivity.
  - intros n j -> Hn Hinf Hrows Hj Hnil.
    destruct (KNNImputer_hollow is_inf knn_value n dc j Hn Hinf Hrows Hj Hnil) as (arr & -> & Hc).
    cbn [rbind]. unfold DataFrame_of_array.
    replace (nd_ncols arr =? length (columns dc))%nat with false
      by (symmetry; apply Nat.eqb_neq; exact Hc).
    reflexivity.
  - unfold index, fillna_mean. cbn [rows]. rewrite <- list_fmap_compose.
    reflexivity.
Qed.

(** C8 (amended).  With method knn, a neighbour count that is not positive
    makes [upsampling] raise InvalidParameterError.  A positive neighbour
    count is accepted however large it is, also beyond the number of rows
    without a missing cell: on a table with at least one row and no
    infinite cell, whose every column holds a value, the call returns a
    table. *)
Theorem upsampling_knn_neighbors (dc : DataFrame V) parameter n (wld : World Weights) :
  subscript parameter "method" = Ok (VStr "knn") ->
  subscript parameter "n_neighbors" = Ok (VInt n) ->
  (n <= 0 ->
   upsampling mean is_inf knn_value dc parameter wld
   = (Raise "InvalidParameterError", wld)) /\
  (0 < n -> has_inf is_inf dc = false -> nrows dc <> O -> columns dc <> [] ->
   (forall j, (j < length (columns dc))%nat -> present dc j <> []) ->
   exists out, upsampling mean is_inf knn_value dc parameter wld = (Ok out, wld) /\
               nrows out = nrows dc).
Proof.
  intros Hk1 Hk2. rewrite (upsampling_knn _ _ _ _ _ _ _ Hk1 Hk2). split.
  - intros Hn. unfold KNNImputer_fit_transform.
    replace (n <=? 0) with true by (symmetry; apply Z.leb_le; lia).
    reflexivity.
  - intros Hn Hinf Hrows Hcols Hfull.
    destruct (KNNImputer_full is_inf knn_value n dc Hn Hinf Hrows Hcols Hfull)
      as (arr & -> & Hc & Hr).
    cbn [rbind]. unfold DataFrame_of_array. cbn [default].
    rewrite Hc, RangeIndex_length, !Nat.eqb_refl. cbn [andb].
    eexists. split; [reflexivity|].
    unfold nrows at 1. cbn [rows]. rewrite length_zip, RangeIndex_length. lia.
Qed.

End Policies.

Lemma downsampling_le_upsampling_witness :
  (nrows (downsampling overlap_gaps) <= nrows (fillna_mean int_mean overlap_gaps)
   <= nrows overlap_gaps)%nat.
Proof.
  apply (downsampling_le_upsampling int_mean int_is_inf int_knn minutes evens overlap_gaps
           mean_parameter empty_world empty_world (fillna_mean int_mean overlap_gaps)).
  - vm_compute. reflexivity.
  - vm_compute. reflexivity.
Defined.

Lemma upsampling_knn_index_witness :
  exists out,
    upsampling int_mean int_is_inf int_knn shifted_gaps (knn_parameter 2) empty_world
      = (Ok out, empty_world) /\
    index shifted_gaps = [5; 6; 7; 8] /\
    index out = [0; 1; 2; 3].
Proof.
  destruct (upsampling_knn_index int_mean int_is_inf int_knn shifted_gaps
              (knn_parameter 2) mean_parameter (VInt 2) (VInt 5) empty_world)
    as (Hindex & Hruns & _).
  - vm_compute. reflexivity.
  - vm_compute. reflexivity.
  - vm_compute. reflexivity.
  - vm_compute. reflexivity.
  - destruct (Hruns 2) as (out & Hout).
    + reflexivity.
    + lia.
    + vm_compute. reflexivity.
    + vm_compute. discriminate.
    + vm_compute. discriminate.
    + intros j Hj. vm_compute in Hj.
      destruct j as [|[|j]]; [vm_compute; discriminate .. | lia].
    + exists out. split; [exact Hout|]. split; [reflexivity|].
      exact (Hindex out empty_world Hout).
Defined.

(** C10, as stated, fails: [hollow] has missing cells, and with method knn
    the call returns no table on it; the imputer drops the column without
    a value and the frame cannot be rebuilt on both column labels. *)
Lemma upsampling_knn_hollow_raises :
  ~ Forall complete (rows hollow) /\
  upsampling int_mean int_is_inf int_knn hollow (knn_parameter 2) empty_world
    = (Raise "ValueError", empty_world).
Proof.
  split; [|vm_compute; reflexivity].
  intros H. apply Forall_cons in H as [H _]. unfold complete in H. cbn in H.
  apply Forall_cons in H as [_ H]. apply Forall_cons in H as [[v Hv] _].
  discriminate Hv.
Qed.

Lemma upsampling_knn_neighbors_witness :
  upsampling int_mean int_is_inf int_knn overlap_gaps (knn_parameter 0) empty_world
    = (Raise "InvalidParameterError", empty_world).
Proof.
  apply (upsampling_knn_neighbors int_mean int_is_inf int_knn overlap_gaps
           (knn_parameter 0) 0 empty_world).
  - vm_compute. reflexivity.
  - vm_compute. reflexivity.
  - lia.
Defined.

(** C8, as stated, fails: three rows of [overlap_gaps] are without a
    missing cell, and a neighbour count of seven raises nothing. *)
Lemma upsampling_knn_many_neighbors :
  nrows (downsampling overlap_gaps) = 3%nat /\
  exists out, upsampling int_mean int_is_inf int_knn overlap_gaps (knn_parameter 7) empty_world
                = (Ok out, empty_world).
Proof. split; [reflexivity|]. eexists. vm_compute. reflexivity. Qed.

(** ** The embedding aligner and the strategy dispatch *)

Section Embedding.

Context {V : Type}.
Variable zero : V.
Variable float32 : V -> V.
Variable mean : list V -> option V.
Variable is_inf : V -> bool.
Variable knn_value : Z -> DataFrame V -> nat -> nat -> V.
Context {Model Weights History : Type}.
Variable RecurrentAutoencoder : nat -> PyVal -> result Model.
Variable train_model : Model -> DataLoader V -> CfgVal -> result (Model * History).
Variable state_dict : Model -> Weights.
Variable get_representation : Model -> DataLoader V -> CfgVal -> result (ndarray V).

Lemma makedirs_ok path (wld wld1 : World Weights) :
  makedirs path wld = (Ok (), wld1) ->
  fs wld1 !! path = Some Dir /\
  stdout wld1 = stdout wld /\
  forall p, p <> path -> fs wld1 !! p = fs wld !! p.
Proof.
  unfold makedirs. destruct (fs wld !! path) as [[|c]|] eqn:Hp; intros [= <-].
  - auto.
  - cbn [fs stdout]. rewrite lookup_insert_eq. repeat split.
    intros p Hne. rewrite lookup_insert_ne by congruence. reflexivity.
Qed.

Lemma torch_save_ok (obj : Weights) path (wld wld1 : World Weights) :
  torch_save obj path wld = (Ok (), wld1) ->
  fs wld1 !! path = Some (File obj) /\
  stdout wld1 = stdout wld /\
  forall p, p <> path -> fs wld1 !! p = fs wld !! p.
Proof.
  unfold torch_save.
  destruct (fs wld !! path) as [[|c]|] eqn:Hp; intros [= <-];
    cbn [fs stdout]; rewrite lookup_insert_eq; repeat split;
    intros p Hne; rewrite lookup_insert_ne by congruence; reflexivity.
Qed.

(** The steps behind a run of [RNN_AE] that returns a table. *)
Lemma RNN_AE_inv (self : Alignment) dc parameter (wld wld' : World Weights) out :
  RNN_AE zero float32 RecurrentAutoencoder train_model state_dict get_representation
    self dc parameter wld = (Ok out, wld') ->
  exists window_size batch emb_dim loaders model0 trained wld1 output e w,
    subscript parameter "window_size" = Ok window_size /\
    subscript parameter "batch_size" = Ok batch /\
    subscript parameter "emb_dim" = Ok emb_dim /\
    get_loaders float32 (fillna_zero zero dc) window_size batch = Ok loaders /\
    RecurrentAutoencoder (length (columns dc)) emb_dim = Ok model0 /\
    train_model model0 (fst loaders) parameter = Ok trained /\
    makedirs checkpoint_dir wld = (Ok (), wld1) /\
    torch_save (state_dict (fst trained)) checkpoint_path wld1 = (Ok (), wld') /\
    get_representation (fst trained) (snd loaders) parameter = Ok output /\
    as_int emb_dim = Ok e /\
    as_int window_size = Ok w /\
    DataFrame_of_array output (map concat_emb (range_from 1 (e + 1)))
      (Some (py_slice_from (index (data_concat self)) w)) = Ok out.
Proof.
  unfold RNN_AE, mbind, M_bind, lift. intros H. cbn beta iota in H.
  do 6 step_run H.
  destruct (makedirs checkpoint_dir wld) as [[[]|?] wld1] eqn:Hmk;
    [|discriminate H].
  destruct (torch_save _ checkpoint_path wld1) as [[[]|?] wld2] eqn:Hsv;
    [|discriminate H].
  do 3 step_run H.
  injection H as H <-.
  repeat eexists; eassumption.
Qed.

(** C6.  A run of [RNN_AE] that returns a table, with a window size w such
    that 0 <= w < overlap_rows and an embedding width emb_dim, returns a
    table of overlap_rows - w rows, whose index is the index of the overlap
    table without its first w labels, and whose columns are concat_emb1 to
    concat_emb{emb_dim}, emb_dim of them. *)
Theorem RNN_AE_shape (self : Alignment) dc parameter w e
    (wld wld' : World Weights) out :
  subscript parameter "window_size" = Ok (VInt w) ->
  subscript parameter "emb_dim" = Ok (VInt e) ->
  0 <= w < Z.of_nat (nrows (data_concat self)) ->
  RNN_AE zero float32 RecurrentAutoencoder train_model state_dict get_representation
    self dc parameter wld = (Ok out, wld') ->
  nrows out = (nrows (data_concat self) - Z.to_nat w)%nat /\
  index out = drop (Z.to_nat w) (index (data_concat self)) /\
  columns out = map concat_emb (range_from 1 (e + 1)) /\
  length (columns out) = Z.to_nat e /\
  (forall i, (i < Z.to_nat e)%nat ->
     columns out !! i = Some (concat_emb (Z.of_nat i + 1))).
Proof.
  intros Hw He Hrange Hrun.
  apply RNN_AE_inv in Hrun
    as (ws & b & ed & lds & m0 & tr & wld1 & output & e' & w' &
        Hws & _ & Hed & _ & _ & _ & _ & _ & _ & He' & Hw' & Hdf).
  rewrite Hw in Hws. injection Hws as <-.
  rewrite He in Hed. injection Hed as <-.
  cbn [as_int] in He', Hw'. injection He' as <-. injection Hw' as <-.
  apply DataFrame_of_array_inv in Hdf as (Hcols & Hidx & _ & _).
  cbn [default from_option id] in Hidx.
  assert (length (index (data_concat self)) = nrows (data_concat self)) as Hlen
    by apply length_map.
  rewrite py_slice_from_inner in Hidx by lia.
  assert (length (range_from 1 (e + 1)) = Z.to_nat e) as Hrl.
  { unfold range_from. rewrite length_map, length_seq. lia. }
  repeat split.
  - assert (nrows out = length (index out)) as ->
      by (symmetry; apply length_map).
    rewrite Hidx, length_drop, Hlen. reflexivity.
  - exact Hidx.
  - exact Hcols.
  - rewrite Hcols, length_map. exact Hrl.
  - intros i Hi. rewrite Hcols, list_lookup_fmap. unfold range_from.
    rewrite list_lookup_fmap, lookup_seq_lt by lia. cbn.
    do 2 f_equal. lia.
Qed.

(** C7.  After a run of [RNN_AE] that returns a table, ./checkpoints is a
    directory, whether or not it was one before, and
    ./checkpoints/best_model.pt holds the weights of the model that
    [train_model] returned; nothing else in the store has changed. *)
Theorem RNN_AE_checkpoint (self : Alignment) dc parameter
    (wld wld' : World Weights) out :
  RNN_AE zero float32 RecurrentAutoencoder train_model state_dict get_representation
    self dc parameter wld = (Ok out, wld') ->
  fs wld' !! checkpoint_dir = Some Dir /\
  (exists window_size batch emb_dim loaders model0 trained,
     subscript parameter "window_size" = Ok window_size /\
     subscript parameter "batch_size" = Ok batch /\
     subscript parameter "emb_dim" = Ok emb_dim /\
     get_loaders float32 (fillna_zero zero dc) window_size batch = Ok loaders /\
     RecurrentAutoencoder (length (columns dc)) emb_dim = Ok model0 /\
     train_model model0 (fst loaders) parameter = Ok trained /\
     fs wld' !! checkpoint_path = Some (File (state_dict (fst trained)))) /\
  (forall p, p <> checkpoint_dir -> p <> checkpoint_path ->
     fs wld' !! p = fs wld !! p).
Proof.
  intros Hrun.
  apply RNN_AE_inv in Hrun
    as (ws & b & ed & lds & m0 & tr & wld1 & output & e' & w' &
        Hws & Hb & Hed & Hlds & Hm0 & Htr & Hmk & Hsv & _).
  apply makedirs_ok in Hmk as (Hdir & _ & Hframe1).
  apply torch_save_ok in Hsv as (Hfile & _ & Hframe2).
  split; [|split].
  - rewrite Hframe2 by discriminate. exact Hdir.
  - exists ws, b, ed, lds, m0, tr. repeat split; assumption.
  - intros p Hp1 Hp2. rewrite Hframe2, Hframe1 by assumption. reflexivity.
Qed.

(** C1 (amended).  When the configured strategy is none of 'up', 'down'
    and 'RNN_AE', [getResult] prints 'Not Available' and goes on; it
    returns no table and leaves the checkpoint store as it was. *)
Theorem getResult_unknown_strategy (self : Alignment) model parameter
    (wld : World Weights) :
  config self !! "model" = Some model ->
  config self !! "parameter" = Some parameter ->
  model <> CScalar (VStr "up") ->
  model <> CScalar (VStr "down") ->
  model <> CScalar (VStr "RNN_AE") ->
  let run := getResult zero float32 mean is_inf knn_value RecurrentAutoencoder train_model
               state_dict get_representation self wld in
  is_ok (fst run) = false /\
  stdout (snd run) = stdout wld ++ ["Not Available"] /\
  fs (snd run) = fs wld.
Proof.
  intros Hm Hp Hup Hdown Hae.
  unfold getResult, mbind, M_bind, lift. rewrite Hm, Hp. cbn beta iota.
  rewrite !decide_False by assumption.
  repeat split.
Qed.

End Embedding.

Lemma RNN_AE_shape_witness :
  exists out wld',
    RNN_AE 0 int_float32 stub_autoencoder stub_train stub_state_dict stub_representation
      (aligner "RNN_AE") overlap_gaps embedding_parameter empty_world = (Ok out, wld') /\
    nrows out = 3%nat /\ index out = [2; 3; 4] /\
    columns out = ["concat_emb1"; "concat_emb2"; "concat_emb3"].
Proof.
  destruct (RNN_AE 0 int_float32 stub_autoencoder stub_train stub_state_dict stub_representation
              (aligner "RNN_AE") overlap_gaps embedding_parameter empty_world)
    as [[out|e] wld'] eqn:Hrun.
  - exists out, wld'. split; [reflexivity|].
    destruct (RNN_AE_shape 0 int_float32 stub_autoencoder stub_train stub_state_dict
                stub_representation (aligner "RNN_AE") overlap_gaps
                embedding_parameter 2 3 empty_world wld' out)
      as (H1 & H2 & H3 & _).
    + vm_compute. reflexivity.
    + vm_compute. reflexivity.
    + vm_compute. split; [discriminate | reflexivity].
    + exact Hrun.
    + split; [exact H1 | split; [exact H2 | exact H3]].
  - vm_compute in Hrun. discriminate Hrun.
Defined.

Lemma RNN_AE_checkpoint_witness :
  exists out wld',
    RNN_AE 0 int_float32 stub_autoencoder stub_train stub_state_dict stub_representation
      (aligner "RNN_AE") overlap_gaps embedding_parameter empty_world = (Ok out, wld') /\
    fs wld' !! checkpoint_dir = Some Dir.
Proof.
  destruct (RNN_AE 0 int_float32 stub_autoencoder stub_train stub_state_dict stub_representation
              (aligner "RNN_AE") overlap_gaps embedding_parameter empty_world)
    as [[out|e] wld'] eqn:Hrun.
  - exists out, wld'. split; [reflexivity|].
    exact (proj1 (RNN_AE_checkpoint 0 int_float32 stub_autoencoder stub_train stub_state_dict
                    stub_representation (aligner "RNN_AE") overlap_gaps
                    embedding_parameter empty_world wld' out Hrun)).
  - vm_compute in Hrun. discriminate Hrun.
Defined.

Lemma getResult_unknown_strategy_witness :
  let run := getResult 0 int_float32 int_mean int_is_inf int_knn stub_autoencoder stub_train
               stub_state_dict stub_representation (aligner "unknown") empty_world in
  is_ok (fst run) = false /\
  stdout (snd run) = stdout empty_world ++ ["Not Available"] /\
  fs (snd run) = fs empty_world.
Proof.
  apply (getResult_unknown_strategy 0 int_float32 int_mean int_is_inf int_knn stub_autoencoder stub_train
           stub_state_dict stub_representation (aligner "unknown")
           (CScalar (VStr "unknown")) embedding_parameter empty_world).
  - vm_compute. reflexivity.
  - vm_compute. reflexivity.
  - discriminate.
  - discriminate.
  - discriminate.
Defined.

(** C1, as stated, fails: with the strategy 'unknown' the dispatch prints
    its message and goes on to the return statement, where the unbound
    result raises UnboundLocalError, not UnknownStrategyError. *)
Lemma getResult_prints_and_continues :
  getResult 0 int_float32 int_mean int_is_inf int_knn stub_autoencoder stub_train stub_state_dict
    stub_representation (aligner "unknown") empty_world
  = (Raise "UnboundLocalError", {| stdout := ["Not Available"]; fs := ∅ |}).
Proof. vm_compute. reflexivity. Qed.

(** * Further properties of the code *)

(** ** The overlap resolver and the constructor *)

Lemma getOverlapData_by_label_witness :
  getOverlapData minutes evens = overlap_by_label minutes evens.
Proof.
  apply (getOverlapData_by_label minutes evens overlap_gaps).
  - vm_compute. reflexivity.
  - vm_compute. reflexivity.
Defined.

Section OverlapShape.

Context {V : Type}.

Lemma row_at_length (x : DataFrame V) l :
  wf_frame x -> length (row_at x l) = length (columns x).
Proof.
  intros Hwf. unfold row_at.
  destruct (find _ _) as [r|] eqn:Hfind.
  - apply find_some in Hfind as [Hin _]. apply list_elem_of_In in Hin.
    unfold wf_frame in Hwf. rewrite Forall_forall in Hwf. exact (Hwf r Hin).
  - apply length_replicate.
Qed.

Lemma concat_outer_wf (x1 x2 joined : DataFrame V) :
  wf_frame x1 -> wf_frame x2 -> concat_outer x1 x2 = Ok joined ->
  wf_frame joined.
Proof.
  unfold concat_outer, wf_frame. intros Hw1 Hw2 Hj.
  rewrite Forall_forall in Hw1, Hw2.
  destruct (decide (index x1 = index x2)) as [Heq|Hne].
  - injection Hj as <-. cbn [rows columns]. apply Forall_forall.
    intros r (r1 & r2 & -> & Hr1 & Hr2)%elem_of_zip_with. cbn [snd].
    rewrite !length_app, (Hw1 r1 Hr1), (Hw2 r2 Hr2). reflexivity.
  - destruct (_ && _); [|discriminate Hj].
    injection Hj as <-. cbn [rows columns]. apply Forall_forall.
    intros r (l & -> & _)%list_elem_of_fmap. cbn [snd].
    rewrite !length_app, !row_at_length by (apply Forall_forall; assumption).
    reflexivity.
Qed.

Lemma getOverlapData_inv (x1 x2 t : DataFrame V) :
  getOverlapData x1 x2 = Ok t ->
  exists joined a b,
    concat_outer x1 x2 = Ok joined /\ t = iloc joined a b.
Proof.
  unfold getOverlapData. destruct (concat_outer x1 x2) as [joined|]; [|discriminate].
  cbn [rbind]. repeat case_match; try discriminate.
  intros [= <-]. eauto.
Qed.

(** X1.  The table [getOverlapData] returns has the columns of the first
    source followed by those of the second, and when every row of the
    sources has one cell per column, so has every row of the result. *)
Theorem getOverlapData_wf (x1 x2 t : DataFrame V) :
  wf_frame x1 -> wf_frame x2 ->
  getOverlapData x1 x2 = Ok t ->
  columns t = columns x1 ++ columns x2 /\ wf_frame t.
Proof.
  intros Hw1 Hw2 (joined & a & b & Hj & ->)%getOverlapData_inv.
  pose proof (concat_outer_wf _ _ _ Hw1 Hw2 Hj) as Hwf.
  cbn [iloc columns]. split; [eapply concat_outer_columns, Hj|].
  unfold wf_frame in *. cbn [rows columns].
  rewrite Forall_forall in Hwf. apply Forall_forall.
  intros r Hr%elem_of_py_slice. exact (Hwf r Hr).
Qed.

Lemma concat_outer_labels_inv (x1 x2 joined : DataFrame V) l :
  concat_outer x1 x2 = Ok joined ->
  l ∈ index joined -> l ∈ index x1 \/ l ∈ index x2.
Proof.
  unfold concat_outer. intros Hj Hl.
  destruct (decide (index x1 = index x2)) as [Heq|Hne].
  - injection Hj as <-. left. revert Hl. unfold index at 1. cbn [rows].
    rewrite zip_with_labels; [tauto|].
    apply (f_equal length) in Heq. unfold index in Heq.
    rewrite !length_map in Heq. exact Heq.
  - destruct (_ && _); [|discriminate Hj].
    injection Hj as <-. revert Hl. unfold index at 1. cbn [rows].
    rewrite <- list_fmap_compose, list_fmap_id. apply elem_of_union_index.
Qed.

(** X2.  [getOverlapData] invents no label and no row: every label of the
    table it returns is a label of one of the sources, and the table has at
    most as many rows as the sources have together. *)
Theorem getOverlapData_labels (x1 x2 t : DataFrame V) :
  getOverlapData x1 x2 = Ok t ->
  (forall l, l ∈ index t -> l ∈ index x1 \/ l ∈ index x2) /\
  (nrows t <= nrows x1 + nrows x2)%nat.
Proof.
  intros (joined & a & b & Hj & ->)%getOverlapData_inv. split.
  - intros l (r & -> & Hr%elem_of_py_slice)%list_elem_of_fmap.
    eapply concat_outer_labels_inv; [exact Hj|].
    apply list_elem_of_fmap. exists r. split; [reflexivity | exact Hr].
  - assert (nrows (iloc joined a b) <= nrows joined)%nat as Hle.
    { unfold nrows, iloc, py_slice. cbn [rows].
      rewrite length_take, length_drop. lia. }
    assert (nrows joined <= nrows x1 + nrows x2)%nat; [|lia].
    clear Hle. unfold concat_outer in Hj.
    destruct (decide (index x1 = index x2)) as [Heq|Hne].
    + injection Hj as <-. unfold nrows. cbn [rows].
      rewrite length_zip_with. lia.
    + destruct (_ && _); [|discriminate Hj].
      injection Hj as <-. unfold nrows. cbn [rows]. rewrite length_map.
      unfold union_index, index. rewrite length_app, !length_map.
      pose proof (length_filter (fun z => z ∉ map fst (rows x1))
                    (map fst (rows x2))) as Hle.
      rewrite length_map in Hle. lia.
Qed.

(** X4.  [Alignment(config, x1, x2)] cannot be built on a source without
    rows: the constructor raises. *)
Theorem Alignment_init_empty config (x1 x2 : DataFrame V) :
  index x1 = [] \/ index x2 = [] ->
  is_ok (Alignment_init config x1 x2) = false.
Proof.
  intros Hempty. unfold Alignment_init, getOverlapData.
  cbn [mbind result_bind].
  destruct (concat_outer x1 x2) as [joined|]; [|reflexivity].
  cbn [rbind].
  destruct Hempty as [-> | ->]; cbn [index_min index_max];
    repeat case_match; reflexivity.
Qed.

End OverlapShape.

Lemma getOverlapData_wf_witness :
  columns overlap_gaps = ["a"; "b"] /\ wf_frame overlap_gaps.
Proof.
  apply (getOverlapData_wf minutes evens overlap_gaps).
  - apply (bool_decide_unpack _). vm_compute. exact I.
  - apply (bool_decide_unpack _). vm_compute. exact I.
  - vm_compute. reflexivity.
Defined.

Lemma getOverlapData_labels_witness :
  (forall l, l ∈ index overlap_gaps -> l ∈ index minutes \/ l ∈ index evens) /\
  (nrows overlap_gaps <= nrows minutes + nrows evens)%nat.
Proof.
  apply (getOverlapData_labels minutes evens overlap_gaps).
  vm_compute. reflexivity.
Defined.

Lemma Alignment_init_empty_witness :
  is_ok (Alignment_init (∅ : gmap string CfgVal) no_rows evens) = false.
Proof.
  apply (Alignment_init_empty ∅ no_rows evens). left. reflexivity.
Defined.

(** ** The resampling policies *)

Section PolicyShape.

Context {V : Type}.
Variable mean : list V -> option V.
Variable is_inf : V -> bool.
Variable knn_value : Z -> DataFrame V -> nat -> nat -> V.
Context {Weights : Type}.

(** X5.  [downsampling] keeps the columns and returns, in their order, the
    rows of its input that have no missing cell, all of them and no other;
    applied to its own result it changes nothing.  It never fails, and
    returns no row when every row has a missing cell. *)
Theorem downsampling_complete (t : DataFrame V) :
  columns (downsampling t) = columns t /\
  Forall complete (rows (downsampling t)) /\
  rows (downsampling t) `sublist_of` rows t /\
  (forall r, r ∈ rows t -> complete r -> r ∈ rows (downsampling t)) /\
  downsampling (downsampling t) = downsampling t.
Proof.
  unfold downsampling, dropna. cbn [columns rows].
  split; [reflexivity|]. split; [|split; [|split]].
  - apply Forall_forall. intros r Hr%list_elem_of_filter. tauto.
  - apply sublist_filter.
  - intros r Hr Hc. apply list_elem_of_filter. tauto.
  - f_equal. apply list_filter_filter_l. tauto.
Qed.

Lemma fillna_mean_complete (t : DataFrame V) :
  wf_frame t ->
  (forall j, (j < length (columns t))%nat -> column_mean mean t j <> None) ->
  Forall complete (rows (fillna_mean mean t)).
Proof.
  intros Hwf Hmean. unfold fillna_mean. cbn [rows].
  apply Forall_fmap, Forall_forall. intros r Hr. unfold complete. cbn [snd compose].
  apply Forall_lookup. intros j x Hx.
  apply list_lookup_imap_Some in Hx as (c & Hc & ->).
  destruct c as [v|]; [eexists; reflexivity|].
  destruct (column_mean mean t j) eqn:Hcm; [eexists; reflexivity|].
  exfalso. apply (Hmean j); [|exact Hcm].
  apply lookup_lt_Some in Hc. unfold wf_frame in Hwf.
  rewrite Forall_forall in Hwf. rewrite <- (Hwf r Hr). exact Hc.
Qed.

(** X6.  When the mean of every column of a rectangular table is a number
    (the column holds a value, and the mean of its values is not NaN), the
    mean fill leaves no missing cell: [downsampling] applied after it
    drops no row. *)
Theorem downsampling_after_mean (t : DataFrame V) :
  wf_frame t ->
  (forall j, (j < length (columns t))%nat -> column_mean mean t j <> None) ->
  downsampling (fillna_mean mean t) = fillna_mean mean t.
Proof.
  intros Hwf Hmean. unfold downsampling, dropna.
  rewrite filter_keeps_all by (apply fillna_mean_complete; assumption).
  destruct (fillna_mean mean t). reflexivity.
Qed.

(** A column whose mean is NaN is left as it is by the mean fill. *)
Lemma present_fillna_mean_same (t : DataFrame V) j :
  column_mean mean t j = None ->
  present (fillna_mean mean t) j = present t j.
Proof.
  intros Hcm. unfold present, fillna_mean. cbn [rows].
  induction (rows t) as [|r rs IH]; [reflexivity|].
  cbn [map omap list_omap snd]. rewrite IH. rewrite list_lookup_imap.
  destruct (snd r !! j) as [[v|]|]; cbn; try reflexivity.
  rewrite Hcm. reflexivity.
Qed.

Lemma fillna_mean_idempotent (t : DataFrame V) :
  fillna_mean mean (fillna_mean mean t) = fillna_mean mean t.
Proof.
  unfold fillna_mean at 1 3. cbn [columns]. f_equal.
  unfold fillna_mean at 2. cbn [rows].
  rewrite <- list_fmap_compose. apply list_fmap_ext. intros _ r _.
  cbn [compose fst snd]. f_equal.
  apply list_eq. intros j. rewrite !list_lookup_imap.
  destruct (snd r !! j) as [[v|]|]; cbn; [reflexivity| |reflexivity].
  destruct (column_mean mean t j) eqn:Hcm; [reflexivity|].
  f_equal. unfold column_mean at 1.
  rewrite (present_fillna_mean_same t j Hcm). exact Hcm.
Qed.

(** X7.  [upsampling] reads both 'method' and 'n_neighbors' before it
    looks at the method: when either entry is missing the call raises
    KeyError, also for the method mean, which has no use for a neighbour
    count.  Nothing is printed or stored. *)
Theorem upsampling_missing_key (dc : DataFrame V) (d : gmap string PyVal)
    (wld : World Weights) :
  d !! "method" = None \/ d !! "n_neighbors" = None ->
  upsampling mean is_inf knn_value dc (CDict d) wld = (Raise "KeyError", wld).
Proof.
  intros Hmiss. unfold upsampling, mbind, M_bind, lift, subscript.
  destruct (d !! "method") as [m|] eqn:Hm; [|reflexivity].
  destruct Hmiss as [Hmiss | ->]; [discriminate Hmiss | reflexivity].
Qed.

(** X8.  With a method other than knn and mean, [upsampling] prints
    'not imp' and then fails at its return statement with
    UnboundLocalError; it returns no table and stores nothing. *)
Theorem upsampling_unknown_method (dc : DataFrame V) parameter m v
    (wld : World Weights) :
  subscript parameter "method" = Ok m ->
  subscript parameter "n_neighbors" = Ok v ->
  m <> VStr "knn" -> m <> VStr "mean" ->
  upsampling mean is_inf knn_value dc parameter wld
  = (Raise "UnboundLocalError",
     {| stdout := stdout wld ++ ["not imp"]; fs := fs wld |}).
Proof.
  intros Hm Hv Hknn Hmean. unfold upsampling, mbind, M_bind, lift.
  rewrite Hm, Hv. cbn beta iota.
  rewrite !decide_False by assumption. reflexivity.
Qed.

(** X9.  The mean fill is idempotent: [upsampling] with method mean
    returns a table on which a second call with the same parameters
    returns that same table. *)
Theorem upsampling_mean_idempotent (dc : DataFrame V) parameter v
    (wld : World Weights) :
  subscript parameter "method" = Ok (VStr "mean") ->
  subscript parameter "n_neighbors" = Ok v ->
  exists up,
    upsampling mean is_inf knn_value dc parameter wld = (Ok up, wld) /\
    upsampling mean is_inf knn_value up parameter wld = (Ok up, wld).
Proof.
  intros Hm Hv. exists (fillna_mean mean dc).
  rewrite !(upsampling_mean _ _ _ _ _ _ _ Hm Hv), fillna_mean_idempotent.
  split; reflexivity.
Qed.

(** [upsampling] does not touch the checkpoint store. *)
Lemma upsampling_fs (dc : DataFrame V) parameter (wld : World Weights) :
  fs (snd (upsampling mean is_inf knn_value dc parameter wld)) = fs wld.
Proof.
  unfold upsampling, mbind, M_bind, lift.
  destruct (subscript parameter "method"); [|reflexivity].
  destruct (subscript parameter "n_neighbors"); [|reflexivity].
  cbn beta iota. repeat case_decide; try reflexivity.
  destruct (KNNImputer_fit_transform _ _ _); [|reflexivity].
  cbn beta iota. destruct (DataFrame_of_array _ _ _); reflexivity.
Qed.

End PolicyShape.

Lemma downsampling_after_mean_witness :
  downsampling (fillna_mean int_mean overlap_gaps) = fillna_mean int_mean overlap_gaps.
Proof.
  apply (downsampling_after_mean int_mean overlap_gaps).
  - apply (bool_decide_unpack _). vm_compute. exact I.
  - intros j Hj. vm_compute in Hj.
    destruct j as [|[|j]]; [vm_compute; discriminate .. | lia].
Defined.

Lemma upsampling_missing_key_witness :
  upsampling int_mean int_is_inf int_knn overlap_gaps
    (CDict {[ "method" := VStr "mean" ]}) empty_world
  = (Raise "KeyError", empty_world).
Proof.
  apply (upsampling_missing_key int_mean int_is_inf int_knn overlap_gaps
           {[ "method" := VStr "mean" ]} empty_world).
  right. vm_compute. reflexivity.
Defined.

Lemma upsampling_unknown_method_witness :
  upsampling int_mean int_is_inf int_knn overlap_gaps
    (CDict {[ "method" := VStr "linear"; "n_neighbors" := VInt 5 ]}) empty_world
  = (Raise "UnboundLocalError", {| stdout := ["not imp"]; fs := ∅ |}).
Proof.
  apply (upsampling_unknown_method int_mean int_is_inf int_knn overlap_gaps
           (CDict {[ "method" := VStr "linear"; "n_neighbors" := VInt 5 ]})
           (VStr "linear") (VInt 5) empty_world).
  - vm_compute. reflexivity.
  - vm_compute. reflexivity.
  - discriminate.
  - discriminate.
Defined.

Lemma upsampling_mean_idempotent_witness :
  exists up,
    upsampling int_mean int_is_inf int_knn overlap_gaps mean_parameter empty_world
      = (Ok up, empty_world) /\
    upsampling int_mean int_is_inf int_knn up mean_parameter empty_world = (Ok up, empty_world).
Proof.
  apply (upsampling_mean_idempotent int_mean int_is_inf int_knn overlap_gaps
           mean_parameter (VInt 5) empty_world).
  - vm_compute. reflexivity.
  - vm_compute. reflexivity.
Defined.

(** ** The window builder *)

Section LoaderShape.

Context {V : Type}.
Variable zero : V.
Variable float32 : V -> V.

Lemma np_array_inv (ws ds : list (ndarray V)) :
  np_array ws = Ok ds -> ds = ws.
Proof.
  unfold np_array. destruct ws as [|w0 ws]; [intros [= <-]; reflexivity|].
  case_match; [intros [= <-]; reflexivity | discriminate].
Qed.

Lemma DataLoader_new_inv (ds : list (ndarray V)) b s ld :
  DataLoader_new ds b s = Ok ld ->
  dataset ld = ds /\ shuffle ld = s /\ (s = true -> ds <> []) /\
  (0 < batch_size ld)%nat /\ b = VInt (Z.of_nat (batch_size ld)).
Proof.
  unfold DataLoader_new.
  destruct (s && (length ds =? 0)%nat) eqn:Hs; [discriminate|].
  destruct b as [z|]; [|discriminate].
  destruct (Z.ltb_spec 0 z); [|discriminate].
  intros [= <-]. cbn [dataset shuffle batch_size].
  repeat split; [| lia | f_equal; lia].
  intros ->. destruct ds; [discriminate Hs | discriminate].
Qed.

(** The two constructions behind a call of [get_loaders] that returns. *)
Lemma get_loaders_inv (data : DataFrame V) ws b train_loader inference_loader :
  get_loaders float32 data ws b = Ok (train_loader, inference_loader) ->
  exists w,
    ws = VInt w /\
    DataLoader_new (torch_Tensor float32 (make_windows (values data) w)) b true
      = Ok train_loader /\
    DataLoader_new (torch_Tensor float32 (make_windows (values data) w)) b false
      = Ok inference_loader.
Proof.
  unfold get_loaders. destruct ws as [w|s]; [|discriminate].
  cbn [as_int mbind result_bind rbind].
  set (windows := make_windows (values data) w). intros H.
  destruct (np_array windows) as [stacked|] eqn:Hds;
    cbn [mbind result_bind rbind] in H; [|discriminate H].
  apply np_array_inv in Hds as ->. cbn zeta in H.
  set (ds := torch_Tensor float32 windows) in *.
  destruct (DataLoader_new ds b true) as [tl|] eqn:Htl;
    cbn [mbind result_bind rbind] in H; [|discriminate H].
  destruct (DataLoader_new ds b false) as [il|] eqn:Hil;
    cbn [mbind result_bind rbind] in H; [|discriminate H].
  injection H as <- <-. exists w. repeat split; assumption.
Qed.

(** X10.  Whenever [get_loaders] returns, it returns two loaders over one
    and the same list of windows, which is not empty and holds, rounded to
    single precision, the windows cut from the values of the table with
    the given integer window size; both loaders have the given batch size,
    which is positive; the first shuffles and the second does not. *)
Theorem get_loaders_shape (data : DataFrame V) ws b train_loader inference_loader :
  get_loaders float32 data ws b = Ok (train_loader, inference_loader) ->
  exists w,
    ws = VInt w /\
    dataset train_loader = torch_Tensor float32 (make_windows (values data) w) /\
    dataset inference_loader = dataset train_loader /\
    dataset train_loader <> [] /\
    shuffle train_loader = true /\ shuffle inference_loader = false /\
    batch_size inference_loader = batch_size train_loader /\
    (0 < batch_size train_loader)%nat /\
    b = VInt (Z.of_nat (batch_size train_loader)).
Proof.
  intros (w & -> & Htl & Hil)%get_loaders_inv.
  apply DataLoader_new_inv in Htl as (Hd1 & Hs1 & Hne & Hb1 & Hbv).
  apply DataLoader_new_inv in Hil as (Hd2 & Hs2 & _ & _ & Hbv2).
  exists w. rewrite Hd1, Hd2.
  repeat split; try assumption.
  - apply Hne. reflexivity.
  - rewrite Hbv in Hbv2. injection Hbv2 as Hbv2. lia.
Qed.

(** X11.  [get_loaders] rejects a window size that is not an integer with
    TypeError, and, for a window size that is not negative, a batch size
    that is not positive with ValueError. *)
Theorem get_loaders_bad_arguments (data : DataFrame V) :
  (forall s b, get_loaders float32 data (VStr s) b = Raise "TypeError") /\
  (forall w z, 0 <= w -> z <= 0 ->
     get_loaders float32 data (VInt w) (VInt z) = Raise "ValueError").
Proof.
  split; [reflexivity|]. intros w z Hw Hz. unfold get_loaders.
  cbn [as_int mbind result_bind rbind].
  rewrite (np_array_uniform _ (Z.to_nat w)) by (apply make_windows_rows; exact Hw).
  cbn [mbind result_bind rbind]. unfold DataLoader_new. cbn [andb].
  replace (0 <? z) with false by (symmetry; apply Z.ltb_ge; lia).
  destruct (length (torch_Tensor float32 (make_windows (values data) w)) =? 0)%nat;
    reflexivity.
Qed.

(** X12.  The windows cut from a table whose missing cells were replaced
    by zero hold no missing cell. *)
Theorem get_loaders_filled (dc : DataFrame V) ws b train_loader inference_loader :
  get_loaders float32 (fillna_zero zero dc) ws b = Ok (train_loader, inference_loader) ->
  forall win, win ∈ dataset train_loader \/ win ∈ dataset inference_loader ->
    Forall (Forall is_Some) (nd_data win).
Proof.
  intros (w & _ & Htl & Hil)%get_loaders_inv win Hwin.
  apply DataLoader_new_inv in Htl as (Hds & _).
  apply DataLoader_new_inv in Hil as (Hds' & _).
  rewrite Hds, Hds' in Hwin.
  assert (win ∈ torch_Tensor float32 (make_windows (values (fillna_zero zero dc)) w))
    as Hin by tauto.
  unfold torch_Tensor, make_windows in Hin.
  apply list_elem_of_fmap in Hin as (win0 & -> & Hin).
  apply list_elem_of_fmap in Hin as (i & -> & _).
  unfold window. cbn [nd_data values fillna_zero rows].
  apply Forall_fmap, Forall_forall. intros cells Hcells%elem_of_py_slice.
  apply list_elem_of_fmap in Hcells as (r' & -> & Hr').
  apply list_elem_of_fmap in Hr' as (r & -> & _). cbn [snd compose].
  apply Forall_fmap, Forall_fmap, Forall_forall. intros c _. eexists. reflexivity.
Qed.

End LoaderShape.

Lemma get_loaders_shape_witness :
  exists train_loader inference_loader,
    get_loaders int_float32 minutes (VInt 2) (VInt 2) = Ok (train_loader, inference_loader) /\
    dataset inference_loader = dataset train_loader /\
    shuffle train_loader = true /\ shuffle inference_loader = false.
Proof.
  destruct (get_loaders int_float32 minutes (VInt 2) (VInt 2)) as [[tl il]|e] eqn:Hrun.
  - exists tl, il. split; [reflexivity|].
    destruct (get_loaders_shape int_float32 minutes (VInt 2) (VInt 2) tl il Hrun)
      as (w & _ & _ & H1 & _ & H2 & H3 & _).
    split; [exact H1 | split; [exact H2 | exact H3]].
  - vm_compute in Hrun. discriminate Hrun.
Defined.

Lemma get_loaders_bad_arguments_witness :
  get_loaders int_float32 minutes (VInt 2) (VInt 0) = Raise "ValueError".
Proof.
  apply (proj2 (get_loaders_bad_arguments int_float32 minutes) 2 0); lia.
Defined.

Lemma get_loaders_filled_witness :
  exists train_loader inference_loader,
    get_loaders int_float32 (fillna_zero 0 overlap_gaps) (VInt 2) (VInt 2)
      = Ok (train_loader, inference_loader) /\
    Forall (fun win => Forall (Forall is_Some) (nd_data win)) (dataset train_loader).
Proof.
  destruct (get_loaders int_float32 (fillna_zero 0 overlap_gaps) (VInt 2) (VInt 2))
    as [[tl il]|e] eqn:Hrun.
  - exists tl, il. split; [reflexivity|].
    apply Forall_forall. intros win Hwin.
    apply (get_loaders_filled 0 int_float32 overlap_gaps (VInt 2) (VInt 2) tl il Hrun win).
    left. exact Hwin.
  - vm_compute in Hrun. discriminate Hrun.
Defined.

(** ** The embedding aligner *)

Section EmbeddingSteps.

Context {V : Type}.
Variable zero : V.
Variable float32 : V -> V.
Variable mean : list V -> option V.
Variable is_inf : V -> bool.
Variable knn_value : Z -> DataFrame V -> nat -> nat -> V.
Context {Model Weights History : Type}.
Variable RecurrentAutoencoder : nat -> PyVal -> result Model.
Variable train_model : Model -> DataLoader V -> CfgVal -> result (Model * History).
Variable state_dict : Model -> Weights.
Variable get_representation : Model -> DataLoader V -> CfgVal -> result (ndarray V).

(** X13.  [RNN_AE] reads 'window_size' and 'batch_size' before anything
    else is done: when either is missing from the parameters the call
    raises KeyError, and nothing has been trained or stored. *)
Theorem RNN_AE_missing_key (self : Alignment) dc (d : gmap string PyVal)
    (wld : World Weights) :
  d !! "window_size" = None \/ d !! "batch_size" = None ->
  RNN_AE zero float32 RecurrentAutoencoder train_model state_dict get_representation
    self dc (CDict d) wld = (Raise "KeyError", wld).
Proof.
  intros Hmiss. unfold RNN_AE, mbind, M_bind, lift, subscript.
  destruct (d !! "window_size") as [ws|] eqn:Hws; [|reflexivity].
  destruct Hmiss as [Hmiss | ->]; [discriminate Hmiss | reflexivity].
Qed.

Lemma make_windows_none (data : ndarray V) w :
  Z.of_nat (length (nd_data data)) <= w -> make_windows data w = [].
Proof.
  intros Hw. apply length_zero_iff_nil. rewrite make_windows_length. lia.
Qed.

(** X14.  With a window size that is at least the number of rows of the
    table, [RNN_AE] fails with ValueError while it builds the loaders: no
    model is built or trained, and the checkpoint store is as it was. *)
Theorem RNN_AE_window_too_large (self : Alignment) dc parameter w b
    (wld : World Weights) :
  subscript parameter "window_size" = Ok (VInt w) ->
  subscript parameter "batch_size" = Ok b ->
  Z.of_nat (nrows dc) <= w ->
  RNN_AE zero float32 RecurrentAutoencoder train_model state_dict get_representation
    self dc parameter wld = (Raise "ValueError", wld).
Proof.
  intros Hw Hb Hrows. unfold RNN_AE, mbind, M_bind, lift.
  rewrite Hw, Hb. cbn beta iota.
  unfold get_loaders. cbn [as_int mbind result_bind rbind].
  rewrite make_windows_none; [reflexivity|].
  cbn [values nd_data fillna_zero rows]. rewrite !length_map. exact Hrows.
Qed.

(** X15.  When the training raises, [RNN_AE] raises the same error, and
    neither the checkpoint directory nor the checkpoint file has been
    written. *)
Theorem RNN_AE_training_fails (self : Alignment) dc parameter
    window_size batch emb_dim loaders model0 e (wld : World Weights) :
  subscript parameter "window_size" = Ok window_size ->
  subscript parameter "batch_size" = Ok batch ->
  subscript parameter "emb_dim" = Ok emb_dim ->
  get_loaders float32 (fillna_zero zero dc) window_size batch = Ok loaders ->
  RecurrentAutoencoder (length (columns dc)) emb_dim = Ok model0 ->
  train_model model0 (fst loaders) parameter = Raise e ->
  RNN_AE zero float32 RecurrentAutoencoder train_model state_dict get_representation
    self dc parameter wld = (Raise e, wld).
Proof.
  intros Hw Hb He Hl Hm Ht. unfold RNN_AE, mbind, M_bind, lift.
  rewrite Hw, Hb. cbn beta iota. rewrite Hl, He. cbn beta iota.
  rewrite Hm, Ht. reflexivity.
Qed.

(** X16.  The checkpoint is written before the embeddings are computed:
    when the inference raises after a training that returned, [RNN_AE]
    raises the same error and leaves ./checkpoints/best_model.pt holding
    the weights of the trained model (on a store where ./checkpoints is
    not a file and the checkpoint path is not a directory). *)
Theorem RNN_AE_inference_fails (self : Alignment) dc parameter
    window_size batch emb_dim loaders model0 trained e (wld : World Weights) :
  subscript parameter "window_size" = Ok window_size ->
  subscript parameter "batch_size" = Ok batch ->
  subscript parameter "emb_dim" = Ok emb_dim ->
  get_loaders float32 (fillna_zero zero dc) window_size batch = Ok loaders ->
  RecurrentAutoencoder (length (columns dc)) emb_dim = Ok model0 ->
  train_model model0 (fst loaders) parameter = Ok trained ->
  get_representation (fst trained) (snd loaders) parameter = Raise e ->
  (forall c, fs wld !! checkpoint_dir <> Some (File c)) ->
  fs wld !! checkpoint_path <> Some Dir ->
  exists wld',
    RNN_AE zero float32 RecurrentAutoencoder train_model state_dict get_representation
      self dc parameter wld = (Raise e, wld') /\
    fs wld' !! checkpoint_dir = Some Dir /\
    fs wld' !! checkpoint_path = Some (File (state_dict (fst trained))).
Proof.
  intros Hw Hb He Hl Hm Ht Hr Hdir Hpath.
  unfold RNN_AE, mbind, M_bind, lift.
  rewrite Hw, Hb. cbn beta iota. rewrite Hl, He. cbn beta iota.
  rewrite Hm, Ht. cbn beta iota.
  destruct (makedirs checkpoint_dir wld) as [[[]|e1] wld1] eqn:Hmk.
  2:{ unfold makedirs in Hmk.
      destruct (fs wld !! checkpoint_dir) as [[|c]|] eqn:Hd;
        try discriminate Hmk. destruct (Hdir c). reflexivity. }
  pose proof (makedirs_ok _ _ _ Hmk) as (Hd1 & _ & Hframe).
  destruct (torch_save (state_dict (fst trained)) checkpoint_path wld1)
    as [[[]|e2] wld2] eqn:Hsv.
  2:{ unfold torch_save in Hsv. rewrite Hframe in Hsv by discriminate.
      destruct (fs wld !! checkpoint_path) as [[|c]|] eqn:Hp;
        try discriminate Hsv. destruct Hpath. reflexivity. }
  pose proof (torch_save_ok _ _ _ _ Hsv) as (Hf2 & _ & Hframe2).
  rewrite Hr. exists wld2. split; [reflexivity|]. split; [|exact Hf2].
  rewrite Hframe2 by discriminate. exact Hd1.
Qed.

(** X17.  The table a run of [RNN_AE] returns pairs, in order, the labels
    of the overlap table from position w on with the rows the inference
    returned for the inference loader: the embedding of the window that
    starts at row i is labelled with the index label at position w + i. *)
Theorem RNN_AE_rows (self : Alignment) dc parameter w
    (wld wld' : World Weights) out :
  subscript parameter "window_size" = Ok (VInt w) ->
  0 <= w <= Z.of_nat (nrows (data_concat self)) ->
  RNN_AE zero float32 RecurrentAutoencoder train_model state_dict get_representation
    self dc parameter wld = (Ok out, wld') ->
  exists batch emb_dim loaders model0 trained output,
    subscript parameter "batch_size" = Ok batch /\
    subscript parameter "emb_dim" = Ok emb_dim /\
    get_loaders float32 (fillna_zero zero dc) (VInt w) batch = Ok loaders /\
    RecurrentAutoencoder (length (columns dc)) emb_dim = Ok model0 /\
    train_model model0 (fst loaders) parameter = Ok trained /\
    get_representation (fst trained) (snd loaders) parameter = Ok output /\
    rows out = zip (drop (Z.to_nat w) (index (data_concat self))) (nd_data output) /\
    length (nd_data output) = (nrows (data_concat self) - Z.to_nat w)%nat.
Proof.
  intros Hw Hrange Hrun.
  apply RNN_AE_inv in Hrun
    as (ws & b & ed & lds & m0 & tr & wld1 & output & e' & w' &
        Hws & Hb & Hed & Hlds & Hm0 & Htr & _ & _ & Hrep & _ & Hw' & Hdf).
  rewrite Hw in Hws. injection Hws as <-.
  cbn [as_int] in Hw'. injection Hw' as <-.
  exists b, ed, lds, m0, tr, output.
  repeat (split; [assumption|]).
  assert (length (index (data_concat self)) = nrows (data_concat self)) as Hlen
    by apply length_map.
  pose proof (DataFrame_of_array_inv _ _ _ _ Hdf) as (_ & Hidx & Hn & Hcells).
  cbn [default from_option id] in Hidx.
  rewrite py_slice_from_inner in Hidx by lia.
  split.
  - rewrite <- Hidx, <- Hcells. symmetry. apply zip_fst_snd.
  - rewrite <- Hn. unfold nrows at 1. rewrite <- (length_map fst).
    change (map fst (rows out)) with (index out).
    rewrite Hidx, length_drop, Hlen. reflexivity.
Qed.

(** ** The strategy dispatch *)

(** X18.  [getResult] reads both entries of the configuration before it
    dispatches: without a 'model' or without a 'parameter' entry it raises
    KeyError, also for the strategy 'down', which takes no parameter. *)
Theorem getResult_missing_entry (self : Alignment) (wld : World Weights) :
  config self !! "model" = None \/ config self !! "parameter" = None ->
  getResult zero float32 mean is_inf knn_value RecurrentAutoencoder train_model state_dict
    get_representation self wld = (Raise "KeyError", wld).
Proof.
  intros Hmiss. unfold getResult, mbind, M_bind, lift.
  destruct (config self !! "model") as [m|] eqn:Hm; [|reflexivity].
  destruct Hmiss as [Hmiss | ->]; [discriminate Hmiss | reflexivity].
Qed.

(** X19.  Built on two sources that have at least one column each and
    configured with the strategy 'down' (and a 'parameter' entry of any
    content), the aligner returns a table with the columns of both sources
    whose every label is a label of both sources and whose rows have no
    missing cell; it prints nothing and stores nothing. *)
Theorem getResult_down (cfg : gmap string CfgVal) (src1 src2 : DataFrame V)
    (self : Alignment) parameter (wld : World Weights) :
  Alignment_init cfg src1 src2 = Ok self ->
  cfg !! "model" = Some (CScalar (VStr "down")) ->
  cfg !! "parameter" = Some parameter ->
  columns src1 <> [] -> columns src2 <> [] ->
  exists out,
    getResult zero float32 mean is_inf knn_value RecurrentAutoencoder train_model state_dict
      get_representation self wld = (Ok out, wld) /\
    columns out = columns src1 ++ columns src2 /\
    Forall complete (rows out) /\
    (forall l, l ∈ index out -> l ∈ index src1 /\ l ∈ index src2).
Proof.
  intros Hinit Hm Hp Hc1 Hc2. unfold Alignment_init in Hinit.
  destruct (getOverlapData src1 src2) as [t|] eqn:Ht; [|discriminate Hinit].
  cbn [mbind result_bind rbind] in Hinit. injection Hinit as <-.
  exists (downsampling t). split; [|split; [|split]].
  - unfold getResult, mbind, M_bind, lift. cbn [config data_concat].
    rewrite Hm, Hp. reflexivity.
  - destruct (getOverlapData_inv _ _ _ Ht) as (joined & a & b & Hj & ->).
    cbn [downsampling dropna columns iloc]. eapply concat_outer_columns, Hj.
  - unfold downsampling, dropna. cbn [rows].
    apply Forall_forall. intros r Hr%list_elem_of_filter. tauto.
  - intros l (r & -> & Hr)%list_elem_of_fmap.
    unfold downsampling, dropna in Hr. cbn [rows] in Hr.
    apply list_elem_of_filter in Hr as [Hfull Hr].
    destruct (getOverlapData_rows _ _ _ Ht) as (joined & Hj & Hsub).
    eapply concat_outer_complete; eauto.
Qed.

(** X20.  With the strategies 'up' and 'down', [getResult] never writes to
    the checkpoint store, whatever the parameters and whether it returns or
    raises. *)
Theorem getResult_resampling_store (self : Alignment) model (wld : World Weights) :
  config self !! "model" = Some (CScalar (VStr model)) ->
  model = "up" \/ model = "down" ->
  fs (snd (getResult zero float32 mean is_inf knn_value RecurrentAutoencoder train_model
             state_dict get_representation self wld)) = fs wld.
Proof.
  intros Hm Hmodel. unfold getResult, mbind, M_bind, lift. rewrite Hm.
  destruct (config self !! "parameter") as [parameter|]; [|reflexivity].
  cbn beta iota. destruct Hmodel as [-> | ->].
  - rewrite decide_True by reflexivity. apply upsampling_fs.
  - reflexivity.
Qed.

End EmbeddingSteps.

Lemma RNN_AE_missing_key_witness :
  RNN_AE 0 int_float32 stub_autoencoder stub_train stub_state_dict stub_representation
    (aligner "RNN_AE") overlap_gaps (CDict {[ "emb_dim" := VInt 3 ]}) empty_world
  = (Raise "KeyError", empty_world).
Proof.
  apply (RNN_AE_missing_key 0 int_float32 stub_autoencoder stub_train stub_state_dict
           stub_representation (aligner "RNN_AE") overlap_gaps
           {[ "emb_dim" := VInt 3 ]} empty_world).
  left. vm_compute. reflexivity.
Defined.

Lemma RNN_AE_window_too_large_witness :
  RNN_AE 0 int_float32 stub_autoencoder stub_train stub_state_dict stub_representation
    (aligner "RNN_AE") overlap_gaps
    (CDict {[ "window_size" := VInt 5; "batch_size" := VInt 2 ]}) empty_world
  = (Raise "ValueError", empty_world).
Proof.
  apply (RNN_AE_window_too_large 0 int_float32 stub_autoencoder stub_train stub_state_dict
           stub_representation (aligner "RNN_AE") overlap_gaps
           (CDict {[ "window_size" := VInt 5; "batch_size" := VInt 2 ]})
           5 (VInt 2) empty_world).
  - vm_compute. reflexivity.
  - vm_compute. reflexivity.
  - vm_compute. discriminate.
Defined.

Lemma RNN_AE_training_fails_witness :
  RNN_AE 0 int_float32 stub_autoencoder failing_train stub_state_dict stub_representation
    (aligner "RNN_AE") overlap_gaps embedding_parameter empty_world
  = (Raise "RuntimeError", empty_world).
Proof.
  destruct (get_loaders int_float32 (fillna_zero 0 overlap_gaps) (VInt 2) (VInt 2))
    as [lds|e] eqn:Hl; [|vm_compute in Hl; discriminate Hl].
  apply (RNN_AE_training_fails 0 int_float32 stub_autoencoder failing_train stub_state_dict
           stub_representation (aligner "RNN_AE") overlap_gaps embedding_parameter
           (VInt 2) (VInt 2) (VInt 3) lds 3 "RuntimeError" empty_world).
  - vm_compute. reflexivity.
  - vm_compute. reflexivity.
  - vm_compute. reflexivity.
  - exact Hl.
  - reflexivity.
  - reflexivity.
Defined.

Lemma RNN_AE_inference_fails_witness :
  exists wld',
    RNN_AE 0 int_float32 stub_autoencoder stub_train stub_state_dict failing_representation
      (aligner "RNN_AE") overlap_gaps embedding_parameter empty_world
    = (Raise "RuntimeError", wld') /\
    fs wld' !! checkpoint_dir = Some Dir /\
    fs wld' !! checkpoint_path = Some (File 3).
Proof.
  destruct (get_loaders int_float32 (fillna_zero 0 overlap_gaps) (VInt 2) (VInt 2))
    as [lds|e] eqn:Hl; [|vm_compute in Hl; discriminate Hl].
  apply (RNN_AE_inference_fails 0 int_float32 stub_autoencoder stub_train stub_state_dict
           failing_representation (aligner "RNN_AE") overlap_gaps
           embedding_parameter (VInt 2) (VInt 2) (VInt 3) lds 3 (3, [])
           "RuntimeError" empty_world).
  - vm_compute. reflexivity.
  - vm_compute. reflexivity.
  - vm_compute. reflexivity.
  - exact Hl.
  - reflexivity.
  - reflexivity.
  - reflexivity.
  - intros c. vm_compute. discriminate.
  - vm_compute. discriminate.
Defined.

Lemma RNN_AE_rows_witness :
  exists out wld',
    RNN_AE 0 int_float32 stub_autoencoder stub_train stub_state_dict stub_representation
      (aligner "RNN_AE") overlap_gaps embedding_parameter empty_world = (Ok out, wld') /\
    exists output,
      rows out = zip [2; 3; 4] (nd_data output) /\ length (nd_data output) = 3%nat.
Proof.
  destruct (RNN_AE 0 int_float32 stub_autoencoder stub_train stub_state_dict stub_representation
              (aligner "RNN_AE") overlap_gaps embedding_parameter empty_world)
    as [[out|e] wld'] eqn:Hrun.
  - exists out, wld'. split; [reflexivity|].
    destruct (RNN_AE_rows 0 int_float32 stub_autoencoder stub_train stub_state_dict
                stub_representation (aligner "RNN_AE") overlap_gaps
                embedding_parameter 2 empty_world wld' out)
      as (b & ed & lds & m0 & tr & output & _ & _ & _ & _ & _ & _ & H1 & H2).
    + vm_compute. reflexivity.
    + vm_compute. split; discriminate.
    + exact Hrun.
    + exists output. split; [exact H1 | exact H2].
  - vm_compute in Hrun. discriminate Hrun.
Defined.

Lemma getResult_missing_entry_witness :
  getResult 0 int_float32 int_mean int_is_inf int_knn stub_autoencoder stub_train stub_state_dict
    stub_representation (bare_aligner "down") empty_world
  = (Raise "KeyError", empty_world).
Proof.
  apply (getResult_missing_entry 0 int_float32 int_mean int_is_inf int_knn stub_autoencoder stub_train
           stub_state_dict stub_representation (bare_aligner "down") empty_world).
  right. vm_compute. reflexivity.
Defined.

Lemma getResult_down_witness :
  exists out,
    getResult 0 int_float32 int_mean int_is_inf int_knn stub_autoencoder stub_train stub_state_dict
      stub_representation (aligner "down") empty_world = (Ok out, empty_world) /\
    columns out = ["a"; "b"] /\
    Forall complete (rows out) /\
    (forall l, l ∈ index out -> l ∈ index minutes /\ l ∈ index evens).
Proof.
  apply (getResult_down 0 int_float32 int_mean int_is_inf int_knn stub_autoencoder stub_train
           stub_state_dict stub_representation
           {[ "model" := CScalar (VStr "down"); "parameter" := embedding_parameter ]}
           minutes evens (aligner "down") embedding_parameter empty_world).
  - vm_compute. reflexivity.
  - vm_compute. reflexivity.
  - vm_compute. reflexivity.
  - discriminate.
  - discriminate.
Defined.

Lemma getResult_resampling_store_witness :
  fs (snd (getResult 0 int_float32 int_mean int_is_inf int_knn stub_autoencoder stub_train stub_state_dict
             stub_representation (aligner "up") empty_world)) = fs empty_world.
Proof.
  apply (getResult_resampling_store 0 int_float32 int_mean int_is_inf int_knn stub_autoencoder stub_train
           stub_state_dict stub_representation (aligner "up") "up" empty_world).
  - vm_compute. reflexivity.
  - left. reflexivity.
Defined.

(** ** What the fills do to the cells *)

Section FillCells.

Context {V : Type}.
Variable mean : list V -> option V.
Variable is_inf : V -> bool.
Variable knn_value : Z -> DataFrame V -> nat -> nat -> V.
Context {Weights : Type}.

Lemma DataFrame_of_array_ncols (arr : ndarray V) cols idx df :
  DataFrame_of_array arr cols idx = Ok df -> nd_ncols arr = length cols.
Proof.
  unfold DataFrame_of_array.
  destruct (_ && _) eqn:Hshape; [|discriminate].
  apply andb_true_iff in Hshape as [Hc%Nat.eqb_eq _]. intros _. exact Hc.
Qed.

(** An imputed array with one column per column of the table has, in row
    i, the cells of row i of the table with the missing ones imputed. *)
Lemma KNNImputer_cells v (dc : DataFrame V) arr :
  KNNImputer_fit_transform is_inf knn_value v dc = Ok arr ->
  nd_ncols arr = length (columns dc) ->
  exists n, v = VInt n /\
    nd_data arr =
      imap (fun i (r : Row V) =>
              map (fun j => Some (default (knn_value n dc i j) (mjoin (snd r !! j))))
                  (seq 0 (length (columns dc))))
           (rows dc).
Proof.
  unfold KNNImputer_fit_transform. destruct v as [n|s]; [|discriminate].
  cbn [as_int mbind result_bind rbind].
  repeat case_match; try discriminate.
  intros [= <-]. cbn [nd_ncols nd_data]. intros Hkeep.
  exists n. split; [reflexivity|].
  rewrite filter_keeps_all; [reflexivity|].
  eapply filter_length_all. rewrite Hkeep, length_seq. reflexivity.
Qed.

(** X21.  A table returned by [upsampling] with method knn has the columns
    and the number of rows of the overlap table and no missing cell, so
    [downsampling] drops none of its rows. *)
Theorem upsampling_knn_complete (dc : DataFrame V) parameter v
    (wld wld' : World Weights) up :
  subscript parameter "method" = Ok (VStr "knn") ->
  subscript parameter "n_neighbors" = Ok v ->
  upsampling mean is_inf knn_value dc parameter wld = (Ok up, wld') ->
  columns up = columns dc /\ nrows up = nrows dc /\
  Forall complete (rows up) /\ downsampling up = up.
Proof.
  intros Hm Hv Hrun. rewrite (upsampling_knn _ _ _ _ _ _ _ Hm Hv) in Hrun.
  destruct (KNNImputer_fit_transform is_inf knn_value v dc) as [arr|] eqn:Harr;
    [|discriminate Hrun].
  cbn [rbind] in Hrun. injection Hrun as Hdf _.
  pose proof (DataFrame_of_array_ncols _ _ _ _ Hdf) as Hn.
  destruct (KNNImputer_cells _ _ _ Harr Hn) as (n & -> & Hcells).
  pose proof (DataFrame_of_array_inv _ _ _ _ Hdf) as (Hcols & _ & Hrows & Hsnd).
  assert (Forall complete (rows up)) as Hfull.
  { unfold complete. apply (Forall_fmap snd (Forall is_Some)).
    change (snd <$> rows up) with (map snd (rows up)).
    rewrite Hsnd, Hcells. apply Forall_forall.
    intros cells (i & r & -> & _)%elem_of_lookup_imap.
    apply Forall_fmap, Forall_forall. intros j _. eexists. reflexivity. }
  split; [exact Hcols|]. split.
  - rewrite Hrows. eapply KNNImputer_rows, Harr.
  - split; [exact Hfull|]. unfold downsampling, dropna.
    rewrite filter_keeps_all by exact Hfull. destruct up. reflexivity.
Qed.

(** X22.  Neither fill alters an observed value: in every table
    [upsampling] returns, row i holds at column j the value the overlap
    table holds there, wherever the overlap table holds one. *)
Theorem upsampling_keeps_values (dc : DataFrame V) parameter
    (wld wld' : World Weights) up i (r : Row V) j x :
  upsampling mean is_inf knn_value dc parameter wld = (Ok up, wld') ->
  rows dc !! i = Some r ->
  snd r !! j = Some (Some x) ->
  (j < length (columns dc))%nat ->
  exists r', rows up !! i = Some r' /\ snd r' !! j = Some (Some x).
Proof.
  unfold upsampling, mbind, M_bind, lift. intros H Hr Hx Hj.
  destruct (subscript parameter "method") as [m|] eqn:Hm; [|discriminate H].
  destruct (subscript parameter "n_neighbors") as [v|] eqn:Hk; [|discriminate H].
  cbn in H. repeat case_decide.
  - destruct (KNNImputer_fit_transform is_inf knn_value v dc) as [arr|] eqn:Harr;
      [|discriminate H].
    destruct (DataFrame_of_array arr (columns dc) None) as [df|] eqn:Hdf;
      [|discriminate H].
    injection H as <- _.
    pose proof (DataFrame_of_array_ncols _ _ _ _ Hdf) as Hn.
    destruct (KNNImputer_cells _ _ _ Harr Hn) as (n & -> & Hcells).
    pose proof (DataFrame_of_array_inv _ _ _ _ Hdf) as (_ & _ & _ & Hsnd).
    assert (map snd (rows df) !! i
            = Some (map (fun j => Some (default (knn_value n dc i j)
                                                (mjoin (snd r !! j))))
                        (seq 0 (length (columns dc))))) as Hrow.
    { rewrite Hsnd, Hcells, list_lookup_imap, Hr. reflexivity. }
    rewrite list_lookup_fmap in Hrow.
    destruct (rows df !! i) as [r'|]; [|discriminate Hrow].
    exists r'. split; [reflexivity|]. injection Hrow as ->.
    rewrite list_lookup_fmap, lookup_seq_lt by exact Hj. cbn.
    rewrite Hx. reflexivity.
  - injection H as <- _. unfold fillna_mean. cbn [rows].
    rewrite list_lookup_fmap, Hr. eexists. split; [reflexivity|].
    cbn [snd]. rewrite list_lookup_imap, Hx. reflexivity.
  - discriminate H.
Qed.

End FillCells.

Lemma upsampling_knn_complete_witness :
  exists up wld',
    upsampling int_mean int_is_inf int_knn overlap_gaps (knn_parameter 2) empty_world
      = (Ok up, wld') /\
    columns up = ["a"; "b"] /\ nrows up = 5%nat /\ downsampling up = up.
Proof.
  destruct (upsampling int_mean int_is_inf int_knn overlap_gaps (knn_parameter 2) empty_world)
    as [[up|e] wld'] eqn:Hrun; [|vm_compute in Hrun; discriminate Hrun].
  exists up, wld'. split; [reflexivity|].
  destruct (upsampling_knn_complete int_mean int_is_inf int_knn overlap_gaps (knn_parameter 2)
              (VInt 2) empty_world wld' up) as (H1 & H2 & _ & H3).
  - vm_compute. reflexivity.
  - vm_compute. reflexivity.
  - exact Hrun.
  - split; [exact H1 | split; [exact H2 | exact H3]].
Defined.

Lemma upsampling_keeps_values_witness :
  exists r', rows (fillna_mean int_mean overlap_gaps) !! 1%nat = Some r' /\
             snd r' !! 0%nat = Some (Some 1).
Proof.
  apply (upsampling_keeps_values int_mean int_is_inf int_knn overlap_gaps mean_parameter
           empty_world empty_world (fillna_mean int_mean overlap_gaps)
           1 (1, [Some 1; None]) 0 1).
  - vm_compute. reflexivity.
  - reflexivity.
  - reflexivity.
  - vm_compute. lia.
Defined.
